(** * Choibot: relay between a game-server WebSocket and a chat channel

    A shallow embedding of [src/main.py].  The module is an asyncio
    program: coroutines run one at a time and give up control only at an
    [await].  Coroutines are embedded as finite trees ([task]) whose nodes
    are either synchronous operations on the module globals ([op]) or
    awaited calls to the outside world ([call]).  A tree is executed by
    [run] against an environment that, at every [await], says what the
    other coroutines did to the globals in the meantime and what the
    awaited call answered. *)

From stdpp Require Import gmap strings list fin_maps.
From Stdlib Require Import ZArith.

#[local] Set Warnings "-register-all".

(** ** Python values *)

(** What [json.loads] produces.  A float is kept as its IEEE-754 binary64
    bit pattern; a dict as its items in insertion order. *)
Inductive json : Set :=
| JNull
| JBool (b : bool)
| JInt (z : Z)
| JFloat (bits : Z)
| JStr (s : string)
| JList (items : list json)
| JDict (fields : list (string * json)).

(** The exception classes the module can meet; all derive from
    [Exception]. *)
Inductive exn : Set :=
| KeyError (key : string)
| TypeError (what : string)
| AttributeError (attr : string)
| ValueError (what : string)
| OverflowError (what : string)
| TimeoutError
| JSONDecodeError
| ConnectionClosed
| LibraryError (what : string).

(** The result of evaluating an expression: a value, or a raised
    exception. *)
Inductive py (A : Type) : Type :=
| Val (a : A)
| Exn (e : exn).

Arguments Val {A} a.
Arguments Exn {A} e.

Fixpoint assoc (key : string) (fields : list (string * json)) : option json :=
  match fields with
  | [] => None
  | (k, v) :: rest => if String.eqb k key then Some v else assoc key rest
  end.

(** [data.get(key)] *)
Definition py_get (data : json) (key : string) : py json :=
  match data with
  | JDict fields => Val (default JNull (assoc key fields))
  | _ => Exn (AttributeError "get")
  end.

(** [data[key]] for a [str] key *)
Definition py_getitem (data : json) (key : string) : py json :=
  match data with
  | JDict fields =>
      match assoc key fields with
      | Some v => Val v
      | None => Exn (KeyError key)
      end
  | JList _ => Exn (TypeError "list indices must be integers or slices, not str")
  | JStr _ => Exn (TypeError "string indices must be integers, not 'str'")
  | _ => Exn (TypeError "object is not subscriptable")
  end.

(** [bool(v)] *)
Definition py_truthy (v : json) : bool :=
  match v with
  | JNull => false
  | JBool b => b
  | JInt z => negb (z =? 0)%Z
  | JFloat bits => negb ((bits =? 0)%Z || (bits =? 2 ^ 63)%Z)
  | JStr s => negb (String.eqb s "")
  | JList items => match items with [] => false | _ => true end
  | JDict fields => match fields with [] => false | _ => true end
  end.

(** [v == s] for a [str] literal [s] *)
Definition py_eq_str (v : json) (s : string) : bool :=
  match v with
  | JStr s' => String.eqb s' s
  | _ => false
  end.

(** [v in [s1, s2, ...]] for a list of [str] literals *)
Definition py_in_strs (v : json) (l : list string) : bool :=
  existsb (py_eq_str v) l.

(** ** Rendered text

    f-strings are kept symbolic: a text is the sequence of its literal
    parts and of the values formatted into it. *)
Inductive piece : Set :=
| Lit (s : string)                        (* literal part *)
| Str (v : json)                          (* {v} *)
| Fixed2 (v : json)                       (* {v:.2f} *)
| Exc (e : exn)                           (* {e} for a caught exception *)
| Status (code : Z)                       (* {response.status} *)
| Titled (s : string)                     (* s.replace("_", " ").title() *)
| Joined (sep : string) (parts : list string)   (* sep.join(parts) *)
| JoinedChars (sep s : string).           (* sep.join(s) for a str s *)

Definition text : Set := list piece.

(** The least magnitude of an [int] that [float] cannot hold: the
    midpoint between the largest double, [2^1024 - 2^971], and [2^1024],
    which rounds to even, that is up and out of range. *)
Definition float_limit : Z := 2 ^ 1024 - 2 ^ 970.

(** [float(z)] succeeds. *)
Definition fits_float (z : Z) : bool := (Z.abs z <? float_limit)%Z.

(** [f"{v:.2f}"]: only numbers have the [f] format code, and an [int] is
    converted to a [float] first, which raises [OverflowError] when it is
    too large. *)
Definition format_2f (v : json) : py piece :=
  match v with
  | JInt z =>
      if fits_float z then Val (Fixed2 v)
      else Exn (OverflowError "int too large to convert to float")
  | JFloat _ | JBool _ => Val (Fixed2 v)
  | JStr _ => Exn (ValueError "Unknown format code 'f' for object of type 'str'")
  | _ => Exn (TypeError "unsupported format string")
  end.

Fixpoint all_strs (items : list json) : option (list string) :=
  match items with
  | [] => Some []
  | JStr s :: rest => cons s <$> all_strs rest
  | _ :: _ => None
  end.

(** [sep.join(v)] *)
Definition py_join (sep : string) (v : json) : py piece :=
  match v with
  | JList items =>
      match all_strs items with
      | Some parts => Val (Joined sep parts)
      | None => Exn (TypeError "sequence item: expected str instance")
      end
  | JDict fields => Val (Joined sep (fst <$> fields))
  | JStr s => Val (JoinedChars sep s)
  | _ => Exn (TypeError "can only join an iterable")
  end.

(** ** Chat-platform objects *)

Inductive colour : Set := green | red | dark_red | blue | purple.

(** [discord.Embed] *)
Record embed : Set := Embed {
  embed_title : option text;
  embed_description : option text;
  embed_color : option colour;
  embed_author : option (text * text);          (* name, icon_url *)
  embed_fields : list (text * text * bool)      (* name, value, inline *)
}.

Definition set_author (name icon_url : text) (e : embed) : embed :=
  Embed (embed_title e) (embed_description e) (embed_color e)
        (Some (name, icon_url)) (embed_fields e).

Definition add_field (name value : text) (inline : bool) (e : embed) : embed :=
  Embed (embed_title e) (embed_description e) (embed_color e)
        (embed_author e) (embed_fields e ++ [(name, value, inline)]).

Inductive content : Set :=
| Plain (t : text)
| Rich (e : embed).

(** The body posted to the webhook. *)
Record webhook_payload : Set := WebhookPayload {
  username : json;
  avatar_url : text;
  payload_content : json
}.

Record http_response : Set := HttpResponse {
  response_ok : bool;
  response_status : Z
}.

(** A [discord.Message] as far as [on_message] looks at it. *)
Record message : Set := Message {
  author_id : Z;
  author_bot : bool;
  author_display_name : string;
  channel_id : Z;
  message_content : string
}.

Abbreviation handle := nat.        (* a WebSocket connection object *)
Abbreviation channel := nat.       (* a chat channel object *)
Abbreviation interaction := nat.   (* a slash-command interaction *)
Abbreviation loc := nat.           (* a heap object: an Event or a dict *)

(** ** Module globals and heap *)

(** [pending_requests] maps a request id to the pair [(event, storage)];
    both components are references, shared between the table and the
    command handler that created them. *)
Record world : Type := World {
  minecraft_client : option handle;
  bot_channel : option channel;
  pending_requests : gmap string (loc * loc);
  events : gmap loc bool;                   (* asyncio.Event flags *)
  dicts : gmap loc (gmap string json);      (* the storage dicts *)
  next_loc : loc
}.

Definition event_flag (w : world) (ev : loc) : bool :=
  default false (events w !! ev).

Definition dict_at (w : world) (d : loc) : gmap string json :=
  default ∅ (dicts w !! d).

Inductive level : Set := INFO | WARNING | ERROR.

(** ** Operations *)

(** Synchronous operations: they run without giving up control. *)
Inductive op : Type :=
| ReadClient                                   (* minecraft_client *)
| WriteClient (c : option handle)              (* minecraft_client = c *)
| ReadChannel                                  (* bot_channel *)
| NewEvent                                     (* asyncio.Event() *)
| NewDict                                      (* {} *)
| PendingSetItem (rid : string) (entry : loc * loc)
| PendingContains (rid : string)               (* rid in pending_requests *)
| PendingGetItem (rid : string)                (* pending_requests[rid] *)
| PendingPop (rid : string)                    (* pending_requests.pop(rid, None) *)
| EventSet (ev : loc)                          (* event.set() *)
| DictSetItem (d : loc) (key : string) (v : json)   (* d[key] = v *)
| DictGet (d : loc) (key : string)             (* d.get(key) *)
| Logging (lvl : level) (msg : text).

Definition op_ret (o : op) : Type :=
  match o with
  | ReadClient => option handle
  | ReadChannel => option channel
  | NewEvent | NewDict => loc
  | PendingContains _ => bool
  | PendingGetItem _ => option (loc * loc)
  | DictGet _ _ => option json
  | _ => unit
  end.

(** Awaited calls: the coroutine is suspended until the call answers. *)
Inductive call : Type :=
| ChannelSend (ch : channel) (e : embed)       (* bot_channel.send(embed=e) *)
| WebhookPost (url : string) (body : webhook_payload)
| ResponseText                                 (* response.text() *)
| WsSend (h : handle) (frame : string)         (* websocket.send(frame) *)
| WsRecv (h : handle)                          (* next step of [async for] *)
| EventWait (ev : loc) (timeout : Z)           (* wait_for(event.wait(), timeout) *)
| RespondMessage (i : interaction) (t : text) (ephemeral : bool)
| Defer (i : interaction) (ephemeral : bool)
| FollowupSend (i : interaction) (c : content) (ephemeral : bool).

Definition call_ret (c : call) : Type :=
  match c with
  | WebhookPost _ _ => http_response
  | ResponseText => string
  | _ => unit
  end.

Definition exec (o : op) (w : world) : op_ret o * world :=
  match o as o' return op_ret o' * world with
  | ReadClient => (minecraft_client w, w)
  | WriteClient c =>
      (tt, World c (bot_channel w) (pending_requests w) (events w) (dicts w) (next_loc w))
  | ReadChannel => (bot_channel w, w)
  | NewEvent =>
      (next_loc w,
       World (minecraft_client w) (bot_channel w) (pending_requests w)
             (<[next_loc w := false]> (events w)) (dicts w) (S (next_loc w)))
  | NewDict =>
      (next_loc w,
       World (minecraft_client w) (bot_channel w) (pending_requests w)
             (events w) (<[next_loc w := ∅]> (dicts w)) (S (next_loc w)))
  | PendingSetItem rid entry =>
      (tt, World (minecraft_client w) (bot_channel w)
                 (<[rid := entry]> (pending_requests w)) (events w) (dicts w) (next_loc w))
  | PendingContains rid => (bool_decide (is_Some (pending_requests w !! rid)), w)
  | PendingGetItem rid => (pending_requests w !! rid, w)
  | PendingPop rid =>
      (tt, World (minecraft_client w) (bot_channel w)
                 (delete rid (pending_requests w)) (events w) (dicts w) (next_loc w))
  | EventSet ev =>
      (tt, World (minecraft_client w) (bot_channel w) (pending_requests w)
                 (<[ev := true]> (events w)) (dicts w) (next_loc w))
  | DictSetItem d key v =>
      (tt, World (minecraft_client w) (bot_channel w) (pending_requests w)
                 (events w) (<[d := <[key := v]> (dict_at w d)]> (dicts w)) (next_loc w))
  | DictGet d key => (dict_at w d !! key, w)
  | Logging _ _ => (tt, w)
  end.

(** ** Coroutines *)

Inductive task (A : Type) : Type :=
| Ret (a : A)
| Raise (e : exn)
| Op (o : op) (k : op_ret o → task A)
| Await (c : call) (k : py (call_ret c) → task A).

Arguments Ret {A} a.
Arguments Raise {A} e.
Arguments Op {A} o k.
Arguments Await {A} c k.

Fixpoint task_bind {A B} (f : A → task B) (t : task A) : task B :=
  match t with
  | Ret a => f a
  | Raise e => Raise e
  | Op o k => Op o (λ x, task_bind f (k x))
  | Await c k => Await c (λ r, task_bind f (k r))
  end.

#[export] Instance task_ret : MRet task := @Ret.
#[export] Instance task_mbind : MBind task := @task_bind.

(** [try: t  except Exception as e: h e] *)
Fixpoint try_except {A} (t : task A) (h : exn → task A) : task A :=
  match t with
  | Ret a => Ret a
  | Raise e => h e
  | Op o k => Op o (λ x, try_except (k x) h)
  | Await c k => Await c (λ r, try_except (k r) h)
  end.

(** [try: t  finally: f]; an exception of [f] replaces the pending one. *)
Fixpoint try_finally {A} (t : task A) (f : task unit) : task A :=
  match t with
  | Ret a => f ;; Ret a
  | Raise e => f ;; Raise e
  | Op o k => Op o (λ x, try_finally (k x) f)
  | Await c k => Await c (λ r, try_finally (k r) f)
  end.

Definition perform (o : op) : task (op_ret o) := Op o Ret.

(** [await c]: the answer is a value or a raised exception. *)
Definition await (c : call) : task (call_ret c) :=
  Await c (λ r, match r with Val x => Ret x | Exn e => Raise e end).

(** A pure computation that may raise. *)
Definition lift {A} (r : py A) : task A :=
  match r with
  | Val a => Ret a
  | Exn e => Raise e
  end.

Definition logging (lvl : level) (msg : text) : task unit :=
  perform (Logging lvl msg).

(** ** Execution *)

Inductive outcome (A : Type) : Type :=
| Returned (a : A)
| Failed (e : exn).

Arguments Returned {A} a.
Arguments Failed {A} e.

Inductive event : Type :=
| Did (o : op)
| Called (c : call).

(** What happens while a coroutine is suspended at an [await]: the other
    coroutines change the globals ([interfere]) and the awaited call
    answers ([answer]). *)
Record env_step : Type := EnvStep {
  answer : ∀ c : call, py (call_ret c);
  interfere : world → world
}.

Definition environment : Type := nat → env_step.

(** [wait_for(event.wait(), timeout)] is not answered by the outside:
    it returns when the flag is set and raises [TimeoutError] when the
    flag is still clear at the end of the wait. *)
Definition reply (c : call) (w : world) (a : py (call_ret c)) : py (call_ret c) :=
  match c as c' return py (call_ret c') → py (call_ret c') with
  | EventWait ev _ => λ _, if event_flag w ev then Val tt else Exn TimeoutError
  | _ => λ a, a
  end a.

Record result (A : Type) : Type := Result {
  outcome_of : outcome A;
  world_of : world;
  step_of : nat;                (* environment steps consumed so far *)
  trace_of : list event
}.

Arguments Result {A} _ _ _ _.
Arguments outcome_of {A} _.
Arguments world_of {A} _.
Arguments step_of {A} _.
Arguments trace_of {A} _.

Definition after {A} (tr : list event) (r : result A) : result A :=
  Result (outcome_of r) (world_of r) (step_of r) (tr ++ trace_of r).

Fixpoint run {A} (t : task A) (env : environment) (n : nat) (w : world) : result A :=
  match t with
  | Ret a => Result (Returned a) w n []
  | Raise e => Result (Failed e) w n []
  | Op o k => after [Did o] (run (k (exec o w).1) env n (exec o w).2)
  | Await c k =>
      let w' := interfere (env n) w in
      after [Called c] (run (k (reply c w' (answer (env n) c))) env (S n) w')
  end.

(** Runs a coroutine up to its first suspension (or its end) and gives
    the globals and the trace at that point. *)
Fixpoint until_suspended {A} (t : task A) (w : world) : world * list event :=
  match t with
  | Ret _ | Raise _ | Await _ _ => (w, [])
  | Op o k =>
      let r := until_suspended (k (exec o w).1) (exec o w).2 in
      (r.1, Did o :: r.2)
  end.

(** ** The module's coroutines *)

Section Choibot.

(** Library functions and configuration read at import time. *)
Variable json_loads : string → option json.   (* [None]: JSONDecodeError *)
Variable json_dumps : json → string.
Variable WEBHOOK_URL : option string.         (* os.environ.get('WEBHOOK_URL') *)
Variable CHANNEL_ID : Z.
Variable client_user : Z.                     (* client.user *)

Definition avatar (player_uuid : json) : text :=
  [Lit "https://api.mineatar.io/face/"; Str player_uuid].

Definition blank (c : option colour) : embed := Embed None None c None [].

Definition online_embed : embed :=
  Embed None (Some [Lit "✅ **서버가 시작되었습니다!**"]) (Some green) None [].

Definition offline_embed : embed :=
  Embed None (Some [Lit "🛑 **서버가 정지되었습니다!**"]) (Some red) None [].

(** [await bot_channel.send(embed=e)] *)
Definition channel_send (e : embed) : task unit :=
  ch ← perform ReadChannel;
  match ch with
  | Some c => await (ChannelSend c e)
  | None => Raise (AttributeError "send")
  end.

(** [await minecraft_client.send(frame)] *)
Definition client_send (frame : string) : task unit :=
  client ← perform ReadClient;
  match client with
  | Some h => await (WsSend h frame)
  | None => Raise (AttributeError "send")
  end.

(** [key in pending_requests]: hashes the key first. *)
Definition pending_contains (key : json) : task bool :=
  match key with
  | JStr rid => perform (PendingContains rid)
  | JList _ => Raise (TypeError "unhashable type: 'list'")
  | JDict _ => Raise (TypeError "unhashable type: 'dict'")
  | _ => Ret false               (* the keys of the table are all [str] *)
  end.

(** [pending_requests[key]] *)
Definition pending_getitem (key : json) : task (loc * loc) :=
  match key with
  | JStr rid =>
      entry ← perform (PendingGetItem rid);
      match entry with
      | Some e => Ret e
      | None => Raise (KeyError rid)
      end
  | JList _ => Raise (TypeError "unhashable type: 'list'")
  | JDict _ => Raise (TypeError "unhashable type: 'dict'")
  | _ => Raise (KeyError "")
  end.

(** Lines 187-197 of [process_minecraft_event]. *)
Definition route_response (event_type data : json) : task unit :=
  if py_in_strs event_type ["list_response"; "tps_response"] then
    request_id ← lift (py_get data "request_id");
    found ← pending_contains request_id;
    if (found : bool) then
      '(event, storage) ← pending_getitem request_id;
      perform (DictSetItem storage "response" data);;
      perform (EventSet event)
    else Ret tt
  else
    _ ← perform ReadChannel;
    Ret tt.

Definition webhook_falsy : bool :=
  match WEBHOOK_URL with
  | None => true
  | Some url => String.eqb url ""
  end.

Definition process_minecraft_event (data : json) : task unit :=
  event_type ← lift (py_get data "type");
  ch ← perform ReadChannel;
  match ch with
  | None => Ret tt
  | Some _ =>
      if py_eq_str event_type "chat" then
        if webhook_falsy then
          logging WARNING [Lit "WEBHOOK_URL is not set. Cannot send chat message."]
        else
          player_name ← lift (py_getitem data "player");
          player_uuid ← lift (py_getitem data "uuid");
          message ← lift (py_getitem data "message");
          let payload := WebhookPayload player_name (avatar player_uuid) message in
          response ← await (WebhookPost (default "" WEBHOOK_URL) payload);
          (if response_ok response then Ret tt
           else
             body ← await ResponseText;
             logging ERROR [Lit "Failed to send webhook message: ";
                            Status (response_status response); Lit " "; Lit body]);;
          route_response event_type data
      else if py_eq_str event_type "join" then
        player_name ← lift (py_getitem data "player");
        player_uuid ← lift (py_getitem data "uuid");
        let author_text := [Str player_name; Lit "님이 서버에 참여하였습니다."] in
        channel_send (set_author author_text (avatar player_uuid) (blank (Some green)));;
        route_response event_type data
      else if py_eq_str event_type "leave" then
        player_name ← lift (py_getitem data "player");
        player_uuid ← lift (py_getitem data "uuid");
        let author_text := [Str player_name; Lit "님이 서버를 떠났습니다."] in
        channel_send (set_author author_text (avatar player_uuid) (blank (Some red)));;
        route_response event_type data
      else if py_eq_str event_type "death" then
        death_message ← lift (py_getitem data "message");
        player_uuid ← lift (py_getitem data "uuid");
        let author_text := [Str death_message] in
        channel_send (set_author author_text (avatar player_uuid) (blank (Some dark_red)));;
        route_response event_type data
      else
        route_response event_type data
  end.

(** The body of the [async for] loop of [websocket_handler]. *)
Definition handle_message (message : string) : task unit :=
  try_except
    (data ← lift (match json_loads message with
                  | Some d => Val d
                  | None => Exn JSONDecodeError
                  end);
     process_minecraft_event data)
    (λ e, match e with
          | JSONDecodeError =>
              logging ERROR [Lit "Received invalid JSON: "; Lit message]
          | _ => logging ERROR [Lit "Error processing message: "; Exc e]
          end).

(** [async for message in websocket]: [inbound] are the frames the
    connection delivers before the peer closes it; the loop is suspended
    before each frame and before it learns of the closure, and a
    connection that breaks raises out of the suspension. *)
Fixpoint read_loop (websocket : handle) (inbound : list string) : task unit :=
  match inbound with
  | [] => await (WsRecv websocket)
  | message :: rest =>
      await (WsRecv websocket);;
      handle_message message;;
      read_loop websocket rest
  end.

(** The [finally] block of [websocket_handler]. *)
Definition disconnect_cleanup : task unit :=
  perform (WriteClient None);;
  ch ← perform ReadChannel;
  match ch with
  | Some _ => channel_send offline_embed
  | None => Ret tt
  end.

Definition websocket_handler (websocket : handle) (inbound : list string) : task unit :=
  perform (WriteClient (Some websocket));;
  logging INFO [Lit "Minecraft mod connected."];;
  ch ← perform ReadChannel;
  match ch with
  | Some _ => channel_send online_embed
  | None => Ret tt
  end;;
  try_finally
    (try_except
       (read_loop websocket inbound)
       (λ e, match e with
             | ConnectionClosed => logging INFO [Lit "Minecraft mod disconnected."]
             | _ => Raise e
             end))
    disconnect_cleanup.

(** [websocket_handler] up to its [finally] block: what the handler
    does from the moment the connection is accepted until the connection
    is over - the loop has ended or has raised - and the cleanup is
    about to start. *)
Definition connection_life (websocket : handle) (inbound : list string) : task unit :=
  perform (WriteClient (Some websocket));;
  logging INFO [Lit "Minecraft mod connected."];;
  ch ← perform ReadChannel;
  match ch with
  | Some _ => channel_send online_embed
  | None => Ret tt
  end;;
  try_except
    (read_loop websocket inbound)
    (λ e, match e with
          | ConnectionClosed => logging INFO [Lit "Minecraft mod disconnected."]
          | _ => Raise e
          end).

Definition on_message (m : message) : task unit :=
  if (author_id m =? client_user)%Z || negb (channel_id m =? CHANNEL_ID)%Z then Ret tt
  else
    client ← perform ReadClient;
    match client with
    | Some _ =>
        if negb (author_bot m) then
          let payload := JDict [("type", JStr "discord_chat");
                                ("author", JStr (author_display_name m));
                                ("message", JStr (message_content m))] in
          client_send (json_dumps payload)
        else Ret tt
    | None => Ret tt
    end.

(** The registration step of both command handlers:
    [event = asyncio.Event(); storage = {};
     pending_requests[request_id] = (event, storage)]. *)
Definition register (request_id : string) : task (loc * loc) :=
  event ← perform NewEvent;
  storage ← perform NewDict;
  perform (PendingSetItem request_id (event, storage));;
  Ret (event, storage).

Definition not_connected : text := [Lit "서버가 연결되지 않았습니다."].

(** The embed built by [list_command] from the response. *)
Definition list_embed (response : json) : py embed :=
  match py_getitem response "count" with
  | Exn e => Exn e
  | Val count =>
  match py_getitem response "max" with
  | Exn e => Exn e
  | Val max_players =>
  match py_getitem response "players" with
  | Exn e => Exn e
  | Val players =>
      let e := Embed (Some [Lit "플레이어 수"])
                     (Some [Lit "**"; Str count; Lit "/"; Str max_players;
                            Lit "** 명이 온라인입니다."])
                     (Some blue) None [] in
      if py_truthy players then
        match py_join "
" players with
        | Exn x => Exn x
        | Val names => Val (add_field [Lit "플레이어 명단"] [names] false e)
        end
      else Val e
  end end end.

(** [response['dimensions'].items()] *)
Definition dimensions_items (response : json) : py (list (string * json)) :=
  match py_getitem response "dimensions" with
  | Exn e => Exn e
  | Val (JDict fields) => Val fields
  | Val _ => Exn (AttributeError "items")
  end.

Fixpoint add_dimensions (items : list (string * json)) (e : embed) : py embed :=
  match items with
  | [] => Val e
  | (dimension, tps) :: rest =>
      match format_2f tps with
      | Exn x => Exn x
      | Val v => add_dimensions rest (add_field [Titled dimension] [Lit "`"; v; Lit "` TPS"] true e)
      end
  end.

(** The embed built by [tps_command] from the response. *)
Definition tps_embed (response : json) : py embed :=
  match dimensions_items response with
  | Exn e => Exn e
  | Val items =>
      add_dimensions items
        (Embed (Some [Lit "서버 tps (Ticks Per Second)"]) None (Some purple) None [])
  end.

Definition list_command (request_id : string) (i : interaction) : task unit :=
  client ← perform ReadClient;
  match client with
  | None => await (RespondMessage i not_connected false)
  | Some _ =>
      await (Defer i false);;
      let request := JDict [("type", JStr "get_list"); ("request_id", JStr request_id)] in
      '(event, storage) ← register request_id;
      try_finally
        (try_except
           (client_send (json_dumps request);;
            await (EventWait event 5);;
            response ← perform (DictGet storage "response");
            if py_truthy (default JNull response) then
              e ← lift (list_embed (default JNull response));
              await (FollowupSend i (Rich e) false)
            else
              await (FollowupSend i (Plain [Lit "예상하지 못한 응답 수신."]) false))
           (λ e, match e with
                 | TimeoutError =>
                     await (FollowupSend i (Plain [Lit "서버가 응답하지 않습니다."]) false)
                 | _ => await (FollowupSend i (Plain [Lit "오류 발생: "; Exc e]) false)
                 end))
        (perform (PendingPop request_id))
  end.

Definition tps_command (request_id : string) (i : interaction) : task unit :=
  client ← perform ReadClient;
  match client with
  | None => await (RespondMessage i not_connected false)
  | Some _ =>
      await (Defer i false);;
      let request := JDict [("type", JStr "get_tps"); ("request_id", JStr request_id)] in
      '(event, storage) ← register request_id;
      try_finally
        (try_except
           (client_send (json_dumps request);;
            await (EventWait event 5);;
            response ← perform (DictGet storage "response");
            if py_truthy (default JNull response) then
              e ← lift (tps_embed (default JNull response));
              await (FollowupSend i (Rich e) false)
            else
              await (FollowupSend i
                       (Plain [Lit "Received an unexpected response from the server."]) true))
           (λ e, match e with
                 | TimeoutError =>
                     await (FollowupSend i
                              (Plain [Lit "The server did not respond in time."]) true)
                 | _ => await (FollowupSend i (Plain [Lit "An error occurred: "; Exc e]) true)
                 end))
        (perform (PendingPop request_id))
  end.

End Choibot.

(** The command tree: the two slash commands of the module. *)
Inductive command : Set := list_cmd | tps_cmd.

Definition command_tree (json_dumps : json → string) (c : command)
  : string → interaction → task unit :=
  match c with
  | list_cmd => list_command json_dumps
  | tps_cmd => tps_command json_dumps
  end.

(** ** Observations on traces *)

Definition registers (rid : string) (e : event) : bool :=
  match e with
  | Did (PendingSetItem rid' _) => String.eqb rid' rid
  | _ => false
  end.

(** The run stored an entry under [rid] in [pending_requests]. *)
Definition registered (rid : string) (tr : list event) : bool :=
  existsb (registers rid) tr.

Definition writes_slot (st : loc) (e : event) : bool :=
  match e with
  | Did (DictSetItem d key _) => Nat.eqb d st && String.eqb key "response"
  | _ => false
  end.

Definition triggers (ev : loc) (e : event) : bool :=
  match e with
  | Did (EventSet ev') => Nat.eqb ev' ev
  | _ => false
  end.

(** How many times the run wrote the response slot of dict [st]. *)
Definition slot_writes (st : loc) (tr : list event) : nat :=
  length (List.filter (writes_slot st) tr).

(** How many times the run called [set()] on event [ev]. *)
Definition signal_triggers (ev : loc) (tr : list event) : nat :=
  length (List.filter (triggers ev) tr).

(** [key in pending_requests] as an expression: the keys of the table
    are all [str], and a list or a dict cannot be hashed. *)
Definition pending_has (w : world) (key : json) : py bool :=
  match key with
  | JStr rid => Val (bool_decide (is_Some (pending_requests w !! rid)))
  | JList _ => Exn (TypeError "unhashable type: 'list'")
  | JDict _ => Exn (TypeError "unhashable type: 'dict'")
  | _ => Val false
  end.

(** [data] is a correlated response: its type is one of the two
    response types. *)
Definition is_response (data : json) : bool :=
  match py_get data "type" with
  | Val event_type => py_in_strs event_type ["list_response"; "tps_response"]
  | Exn _ => false
  end.

(** [data] is a correlated response carrying the request id [rid]. *)
Definition is_response_for (rid : string) (data : json) : bool :=
  match py_get data "type", py_get data "request_id" with
  | Val event_type, Val (JStr rid') =>
      py_in_strs event_type ["list_response"; "tps_response"] && String.eqb rid' rid
  | _, _ => false
  end.

(** ** Sample worlds and environments *)

(** Every awaited call succeeds. *)
Definition all_ok (c : call) : py (call_ret c) :=
  match c with
  | WebhookPost _ _ => Val (HttpResponse true 204)
  | ResponseText => Val ""
  | _ => Val tt
  end.

(** Every awaited call raises [e]. *)
Definition all_fail (e : exn) (c : call) : py (call_ret c) := Exn e.

(** Nothing else runs while the coroutine is suspended. *)
Definition quiet : env_step := EnvStep all_ok id.

Definition calm : environment := λ _, quiet.

(** A stand-in for [json.dumps] in the examples: it only keeps the
    string values of the top-level fields. *)
Definition toy_dumps (v : json) : string :=
  match v with
  | JDict fields =>
      String.concat "," (omap (λ kv, match kv.2 with JStr s => Some s | _ => None end) fields)
  | _ => ""
  end.

(** No connection, no channel, nothing pending. *)
Definition idle : world := World None None ∅ ∅ ∅ 0.

(** Connection 1 is registered and the channel is known. *)
Definition connected : world := World (Some 1) (Some 9) ∅ ∅ ∅ 0.

(** As [connected], with request "r1" waiting on event 0 and dict 1. *)
Definition waiting : world :=
  World (Some 1) (Some 9) {["r1" := (0, 1)]} {[0 := false]} {[1 := ∅]} 2.

(** As [waiting], before [on_ready] has found the channel. *)
Definition waiting_unready : world :=
  World (Some 1) None {["r1" := (0, 1)]} {[0 := false]} {[1 := ∅]} 2.

Definition list_response_r1 : json :=
  JDict [("type", JStr "list_response"); ("request_id", JStr "r1");
         ("count", JInt 1); ("max", JInt 20); ("players", JList [JStr "Alice"])].

Definition list_response_r1_later : json :=
  JDict [("type", JStr "list_response"); ("request_id", JStr "r1");
         ("count", JInt 0); ("max", JInt 20); ("players", JList [])].

(** A stand-in for [json.loads] in the examples: it knows four
    messages and rejects every other text. *)
Definition toy_loads (m : string) : option json :=
  if String.eqb m "first" then Some list_response_r1
  else if String.eqb m "second" then Some list_response_r1_later
  else if String.eqb m "nameless" then
    Some (JDict [("type", JStr "join"); ("uuid", JStr "u1")])
  else if String.eqb m "alice" then
    Some (JDict [("type", JStr "join"); ("player", JStr "Alice"); ("uuid", JStr "u1")])
  else None.

(** While connection 1's handler is suspended, connection 2 arrives and
    its handler runs up to its first suspension. *)
Definition second_connects : env_step :=
  EnvStep all_ok (λ w, (until_suspended (websocket_handler toy_loads None 2 []) w).1).

Definition replaced : environment :=
  λ k, match k with 0 => second_connects | _ => quiet end.

(** The channel is known and no connection is registered. *)
Definition ready : world := World None (Some 9) ∅ ∅ ∅ 0.

(** As [replaced], for a handler that has announced itself at step 0
    and waits for its first frame at step 1. *)
Definition replaced_later : environment :=
  λ k, match k with 1 => second_connects | _ => quiet end.

(** A response frame whose [request_id] is a JSON array. *)
Definition tps_response_unhashable : json :=
  JDict [("type", JStr "tps_response"); ("request_id", JList [JStr "r1"]);
         ("dimensions", JDict [("overworld", JInt 20)])].

(** While [/list] waits for its response, the read loop handles the
    matching frame; steps 0 and 1 are the deferral and the send. *)
Definition response_arrives : environment :=
  λ k, match k with
       | 2 => EnvStep all_ok
                (λ w, world_of (run (process_minecraft_event None list_response_r1) calm 0 w))
       | _ => quiet
       end.

(** The connection closes while the command defers its answer. *)
Definition connection_drops : environment :=
  λ k, match k with
       | 0 => EnvStep all_ok (λ w, (until_suspended disconnect_cleanup w).1)
       | _ => quiet
       end.

(** The send works, the answer to the user fails. *)
Definition followup_fails : environment :=
  λ k, match k with
       | 3 => EnvStep (all_fail (LibraryError "HTTPException")) id
       | _ => quiet
       end.

(** Every awaited call succeeds, except that a receive answers [r]. *)
Definition recv_answer (r : py unit) (c : call) : py (call_ret c) :=
  match c as c' return py (call_ret c') with
  | WsRecv _ => r
  | c' => all_ok c'
  end.

(** The connection breaks at step [k0]: from then on a receive raises
    [ConnectionClosed]. *)
Definition breaks_at (k0 : nat) : environment :=
  λ k, EnvStep (recv_answer (if k <? k0 then Val tt else Exn ConnectionClosed)) id.

(** The deferral works, the send to the game process raises. *)
Definition send_breaks : environment :=
  λ k, match k with
       | 1 => EnvStep (all_fail ConnectionClosed) id
       | _ => quiet
       end.

(** A stand-in for [json.loads] that knows three events of one player. *)
Definition presence_loads (m : string) : option json :=
  if String.eqb m "in" then
    Some (JDict [("type", JStr "join"); ("player", JStr "Alice"); ("uuid", JStr "u1")])
  else if String.eqb m "out" then
    Some (JDict [("type", JStr "leave"); ("player", JStr "Alice"); ("uuid", JStr "u1")])
  else if String.eqb m "fell" then
    Some (JDict [("type", JStr "death"); ("message", JStr "Alice fell"); ("uuid", JStr "u1")])
  else if String.eqb m "odd" then
    Some (JDict [("type", JStr "tps_response"); ("request_id", JDict [])])
  else None.

(** The chat platform refuses every call. *)
Definition refusing : environment :=
  λ _, EnvStep (all_fail (LibraryError "Forbidden")) id.

(** What the read loop logs for an exception of the loop body. *)
Definition error_log (message : string) (e : exn) : event :=
  Did (Logging ERROR match e with
                     | JSONDecodeError => [Lit "Received invalid JSON: "; Lit message]
                     | _ => [Lit "Error processing message: "; Exc e]
                     end).

(** ** Footprints

    What a coroutine can do at all, whatever the environment answers:
    [only P t] holds when every operation and every awaited call of
    every path of [t] satisfies [P]. *)
Fixpoint only {A} (P : event → Prop) (t : task A) : Prop :=
  match t with
  | Ret _ | Raise _ => True
  | Op o k => P (Did o) ∧ ∀ x, only P (k x)
  | Await c k => P (Called c) ∧ ∀ r, only P (k r)
  end.

(** The dispatcher reads the channel, looks the table up, resolves an
    entry, logs, and talks to the chat platform. *)
Definition dispatcher_may (e : event) : bool :=
  match e with
  | Did ReadChannel | Did (PendingContains _) | Did (PendingGetItem _)
  | Did (EventSet _) | Did (Logging _ _) => true
  | Did (DictSetItem _ key _) => String.eqb key "response"
  | Called (ChannelSend _ _) | Called (WebhookPost _ _) | Called ResponseText => true
  | _ => false
  end.

(** A connection handler does what the dispatcher does, writes its own
    handle or [None] to the registry, and receives on its own socket. *)
Definition handler_may (ws : handle) (e : event) : bool :=
  match e with
  | Did (WriteClient (Some h)) => Nat.eqb h ws
  | Did (WriteClient None) => true
  | Called (WsRecv h) => Nat.eqb h ws
  | _ => dispatcher_may e
  end.

(** A command handler reads the registry, allocates, stores and pops
    its own request id, reads a slot, sends on a socket, waits, and
    answers its own interaction. *)
Definition command_may (rid : string) (i : interaction) (e : event) : bool :=
  match e with
  | Did ReadClient | Did NewEvent | Did NewDict | Did (DictGet _ _) => true
  | Did (PendingSetItem rid' _) | Did (PendingPop rid') => String.eqb rid' rid
  | Called (WsSend _ _) | Called (EventWait _ _) => true
  | Called (RespondMessage i' _ _) | Called (Defer i' _) | Called (FollowupSend i' _ _) =>
      Nat.eqb i' i
  | _ => false
  end.

(** The guarded block of a command reads the registry and its slot and
    makes calls; it writes nothing. *)
Definition waiter_may (e : event) : bool :=
  match e with
  | Did ReadClient | Did (DictGet _ _) => true
  | Did _ => false
  | Called _ => true
  end.

(** The embeds the run sent to the channel, in order. *)
Definition channel_sends (tr : list event) : list embed :=
  omap (λ e, match e with Called (ChannelSend _ x) => Some x | _ => None end) tr.

(** The frames the run sent to the game process, in order. *)
Definition socket_sends (tr : list event) : list (handle * string) :=
  omap (λ e, match e with Called (WsSend h frame) => Some (h, frame) | _ => None end) tr.

(** How many times the run waited for a frame of connection [ws]. *)
Definition receives (ws : handle) (tr : list event) : nat :=
  length (List.filter (λ e, match e with Called (WsRecv h) => Nat.eqb h ws | _ => false end) tr).

(** ** One-way events *)

Inductive notice : Set := join_notice | leave_notice | death_notice.

Definition notice_type (k : notice) : string :=
  match k with
  | join_notice => "join"
  | leave_notice => "leave"
  | death_notice => "death"
  end.

(** The field a notice looks up first; the second is always "uuid". *)
Definition notice_key (k : notice) : string :=
  match k with
  | join_notice | leave_notice => "player"
  | death_notice => "message"
  end.

(** The embed a notice is rendered as, from its two fields. *)
Definition notice_embed (k : notice) (v player_uuid : json) : embed :=
  match k with
  | join_notice =>
      Embed None None (Some green)
            (Some ([Str v; Lit "님이 서버에 참여하였습니다."], avatar player_uuid)) []
  | leave_notice =>
      Embed None None (Some red)
            (Some ([Str v; Lit "님이 서버를 떠났습니다."], avatar player_uuid)) []
  | death_notice =>
      Embed None None (Some dark_red) (Some ([Str v], avatar player_uuid)) []
  end.

(** The embed of a frame that is a join, leave or death event with
    its two fields; [None] for any other frame. *)
Definition notice_of (data : json) : option embed :=
  match py_get data "type" with
  | Val (JStr t) =>
      match List.find (λ k, String.eqb (notice_type k) t)
                      [join_notice; leave_notice; death_notice] with
      | Some k =>
          match py_getitem data (notice_key k), py_getitem data "uuid" with
          | Val v, Val player_uuid => Some (notice_embed k v player_uuid)
          | _, _ => None
          end
      | None => None
      end
  | _ => None
  end.

(** The types the dispatcher knows. *)
Definition known_types : list string :=
  ["chat"; "join"; "leave"; "death"; "list_response"; "tps_response"].

(** ** Requests and replies of the commands *)

Definition request_of (c : command) (rid : string) : json :=
  JDict [("type", JStr match c with list_cmd => "get_list" | tps_cmd => "get_tps" end);
         ("request_id", JStr rid)].


(** What a command tells the user when its guarded block raised [e]. *)
Definition failure_reply (c : command) (i : interaction) (e : exn) : call :=
  match c, e with
  | list_cmd, TimeoutError =>
      FollowupSend i (Plain [Lit "서버가 응답하지 않습니다."]) false
  | list_cmd, _ => FollowupSend i (Plain [Lit "오류 발생: "; Exc e]) false
  | tps_cmd, TimeoutError =>
      FollowupSend i (Plain [Lit "The server did not respond in time."]) true
  | tps_cmd, _ => FollowupSend i (Plain [Lit "An error occurred: "; Exc e]) true
  end.

(** Runs coroutines one after the other, each to its end, whatever the
    outcome of the previous ones, and gives the globals at the end. *)
Fixpoint run_each (ts : list (task unit)) (env : environment) (n : nat) (w : world) : world :=
  match ts with
  | [] => w
  | t :: rest => run_each rest env (step_of (run t env n w)) (world_of (run t env n w))
  end.

(** A rate that [{tps:.2f}] can format: a [float], a [bool], or an
    [int] within the range of [float]. *)
Definition is_number (v : json) : bool :=
  match v with
  | JInt z => fits_float z
  | JFloat _ | JBool _ => true
  | _ => false
  end.

(** The globals after [minecraft_client = None]. *)
Definition cleared (w : world) : world :=
  World None (bot_channel w) (pending_requests w) (events w) (dicts w) (next_loc w).

(** The field [tps_command] adds for one dimension. *)
Definition dimension_field (kv : string * json) : text * text * bool :=
  ([Titled kv.1], [Lit "`"; Fixed2 kv.2; Lit "` TPS"], true).

(** ** Laws of execution *)

Definition and_then {A B} (r : result A) (f : A → nat → world → result B) : result B :=
  match outcome_of r with
  | Returned a => after (trace_of r) (f a (step_of r) (world_of r))
  | Failed e => Result (Failed e) (world_of r) (step_of r) (trace_of r)
  end.

Definition or_else {A} (r : result A) (h : exn → nat → world → result A) : result A :=
  match outcome_of r with
  | Returned a => r
  | Failed e => after (trace_of r) (h e (step_of r) (world_of r))
  end.

Definition and_finally {A} (r : result A) (f : nat → world → result unit) : result A :=
  let c := f (step_of r) (world_of r) in
  Result (match outcome_of c with
          | Returned _ => outcome_of r
          | Failed e => Failed e
          end)
         (world_of c) (step_of c) (trace_of r ++ trace_of c).

Lemma after_nil {A} (r : result A) : after [] r = r.
Proof. by destruct r. Qed.

Lemma after_after {A} tr1 tr2 (r : result A) :
  after tr1 (after tr2 r) = after (tr1 ++ tr2) r.
Proof. unfold after; simpl. by rewrite app_assoc. Qed.

Lemma after_and_then {A B} tr (r : result A) (f : A → nat → world → result B) :
  after tr (and_then r f) = and_then (after tr r) f.
Proof.
  unfold and_then; simpl.
  destruct (outcome_of r); [apply after_after | done].
Qed.

Lemma after_or_else {A} tr (r : result A) h :
  after tr (or_else r h) = or_else (after tr r) h.
Proof.
  unfold or_else; simpl.
  destruct (outcome_of r); [done | apply after_after].
Qed.

Lemma after_and_finally {A} tr (r : result A) f :
  after tr (and_finally r f) = and_finally (after tr r) f.
Proof. unfold and_finally, after; simpl. by rewrite app_assoc. Qed.

Lemma run_bind {A B} (t : task A) (f : A → task B) env n w :
  run (t ≫= f) env n w = and_then (run t env n w) (λ a n' w', run (f a) env n' w').
Proof.
  unfold mbind, task_mbind.
  revert n w; induction t as [a|e|o k IH|c k IH]; intros n w.
  - unfold and_then; simpl. by rewrite after_nil.
  - done.
  - simpl. rewrite IH. apply after_and_then.
  - simpl. rewrite IH. apply after_and_then.
Qed.

Lemma run_try_except {A} (t : task A) h env n w :
  run (try_except t h) env n w = or_else (run t env n w) (λ e n' w', run (h e) env n' w').
Proof.
  revert n w; induction t as [a|e|o k IH|c k IH]; intros n w.
  - done.
  - unfold or_else; simpl. by rewrite after_nil.
  - simpl. rewrite IH. apply after_or_else.
  - simpl. rewrite IH. apply after_or_else.
Qed.

Lemma run_try_finally {A} (t : task A) f env n w :
  run (try_finally t f) env n w = and_finally (run t env n w) (λ n' w', run f env n' w').
Proof.
  revert n w; induction t as [a|e|o k IH|c k IH]; intros n w.
  - simpl. rewrite run_bind. unfold and_then, and_finally; simpl.
    destruct (run f env n w) as [[[]|e] w' n' tr]; unfold after; simpl;
      by rewrite ?app_nil_r.
  - simpl. rewrite run_bind. unfold and_then, and_finally; simpl.
    destruct (run f env n w) as [[[]|e'] w' n' tr]; unfold after; simpl;
      by rewrite ?app_nil_r.
  - simpl. rewrite IH. apply after_and_finally.
  - simpl. rewrite IH. apply after_and_finally.
Qed.

Lemma run_perform (o : op) env n w :
  run (perform o) env n w = Result (Returned (exec o w).1) (exec o w).2 n [Did o].
Proof. done. Qed.

Lemma run_await (c : call) env n w :
  run (await c) env n w =
  Result (match reply c (interfere (env n) w) (answer (env n) c) with
          | Val x => Returned x
          | Exn e => Failed e
          end)
         (interfere (env n) w) (S n) [Called c].
Proof.
  unfold await; simpl.
  by destruct (reply c (interfere (env n) w) (answer (env n) c)).
Qed.

(** One step of symbolic execution. *)
Lemma run_lift {A} (r : py A) env n w :
  run (lift r) env n w =
  Result (match r with Val a => Returned a | Exn e => Failed e end) w n [].
Proof. by destruct r. Qed.

Ltac rewrite_at_type H :=
  first
    [ rewrite H
    | let E := fresh in
      pose proof H as E; cbn [op_ret call_ret] in E; rewrite E; clear E ].

Ltac run_step :=
  first
    [ match goal with
      | |- context [run (perform ?o) ?env ?n ?w] => rewrite_at_type (run_perform o env n w)
      | |- context [run (logging ?l ?m) ?env ?n ?w] =>
          rewrite_at_type (run_perform (Logging l m) env n w)
      | |- context [run (await ?c) ?env ?n ?w] => rewrite_at_type (run_await c env n w)
      | |- context [run (lift ?r) ?env ?n ?w] => rewrite (run_lift r env n w)
      | |- context [run (Ret ?a) ?env ?n ?w] =>
          change (run (Ret a) env n w) with (Result (Returned a) w n [])
      end
    | rewrite run_bind; unfold and_then ];
  cbn [outcome_of world_of step_of trace_of after exec fst snd reply app].

(** ** The request/response gateway *)

(** Whatever the guarded block did, a [finally] that pops [rid] leaves
    no entry for [rid]. *)
Lemma finally_pop {A} (t : task A) rid env n w :
  pending_requests (world_of (run (try_finally t (perform (PendingPop rid))) env n w)) !! rid
  = None.
Proof.
  rewrite run_try_finally. unfold and_finally; simpl.
  apply lookup_delete_eq.
Qed.

(** C1. Every invocation of [/list] or [/tps] that gets past the
    connection check and stores its [request_id] in [pending_requests]
    ends with no entry for that [request_id] in the table, whatever the
    awaited calls answered (response, timeout, or an exception of the
    send or of any later step) and whatever the other coroutines did in
    the meantime. *)
Theorem gateway_cleanup json_dumps (c : command) (rid : string) (i : interaction) env n w :
  registered rid (trace_of (run (command_tree json_dumps c rid i) env n w)) = true →
  pending_requests (world_of (run (command_tree json_dumps c rid i) env n w)) !! rid = None.
Proof.
  destruct c; unfold command_tree, list_command, tps_command.
  all: do 2 run_step.
  all: destruct (minecraft_client w) as [h|]; [|run_step; by cbn].
  all: do 2 run_step.
  all: destruct (answer (env n) (Defer i false)) as [[]|e]; [|by cbn].
  all: intros _; unfold register; repeat run_step.
  all: apply finally_pop.
Qed.

(** C6. A [/list] or [/tps] invoked while no connection is registered
    does nothing but answer the interaction with the "not connected"
    message: it registers nothing, sends nothing to the game process and
    does not wait; the globals are only changed by the other coroutines
    that run while the answer is being sent. *)
Theorem gateway_unavailable json_dumps (c : command) (rid : string) (i : interaction) env n w :
  minecraft_client w = None →
  run (command_tree json_dumps c rid i) env n w =
  Result (match answer (env n) (RespondMessage i not_connected false) with
          | Val _ => Returned tt
          | Exn e => Failed e
          end)
         (interfere (env n) w) (S n)
         [Did ReadClient; Called (RespondMessage i not_connected false)].
Proof.
  intros Hnone.
  destruct c; unfold command_tree, list_command, tps_command.
  all: do 2 run_step; rewrite Hnone; run_step.
  all: by destruct (answer (env n) (RespondMessage i not_connected false)) as [[]|e].
Qed.

Lemma gateway_unavailable_witness :
  minecraft_client idle = None ∧
  run (command_tree toy_dumps tps_cmd "r1" 7) calm 0 idle =
  Result (Returned tt) idle 1 [Did ReadClient; Called (RespondMessage 7 not_connected false)].
Proof.
  split; [reflexivity|].
  exact (gateway_unavailable toy_dumps tps_cmd "r1" 7 calm 0 idle eq_refl).
Defined.

Lemma gateway_cleanup_witness :
  registered "r1" (trace_of (run (command_tree toy_dumps list_cmd "r1" 7) calm 0 connected))
  = true ∧
  pending_requests (world_of (run (command_tree toy_dumps list_cmd "r1" 7) calm 0 connected))
  !! "r1" = None.
Proof.
  split; [reflexivity|].
  apply gateway_cleanup. reflexivity.
Defined.

(** ** The pending-request table *)

(** C5 (amended). Registration never fails: whether or not
    [request_id] is already in [pending_requests], it returns a new
    event (clear) and a new dict (empty) and stores them under
    [request_id]; an entry that was there, made of objects allocated
    earlier, is replaced, and the other entries are untouched. *)
Theorem register_overwrites (rid : string) env n w :
  let r := run (register rid) env n w in
  let entry := (next_loc w, S (next_loc w)) in
  outcome_of r = Returned entry ∧
  pending_requests (world_of r) !! rid = Some entry ∧
  event_flag (world_of r) entry.1 = false ∧
  dict_at (world_of r) entry.2 = ∅ ∧
  (∀ old, pending_requests w !! rid = Some old → old.1 < next_loc w → old ≠ entry) ∧
  (∀ rid', rid' ≠ rid → pending_requests (world_of r) !! rid' = pending_requests w !! rid') ∧
  trace_of r = [Did NewEvent; Did NewDict; Did (PendingSetItem rid entry)].
Proof.
  cbn. unfold event_flag, dict_at; cbn.
  split_and!; try done.
  - apply lookup_insert_eq.
  - by rewrite lookup_insert_eq.
  - by rewrite lookup_insert_eq.
  - intros [ev st] _ Hlt [= -> _]. cbn in Hlt. lia.
  - intros rid' Hne. by apply lookup_insert_ne.
Qed.

(** C5 as stated fails: "r1" is already registered in [waiting], yet
    registering it again raises nothing and the old entry is replaced. *)
Lemma register_duplicate_counterexample :
  pending_requests waiting !! "r1" = Some (0, 1) ∧
  (∀ e, outcome_of (run (register "r1") calm 0 waiting) ≠ Failed e) ∧
  outcome_of (run (register "r1") calm 0 waiting) = Returned (2, 3) ∧
  pending_requests (world_of (run (register "r1") calm 0 waiting)) !! "r1" = Some (2, 3).
Proof. repeat split; done. Qed.

(** ** The inbound dispatcher *)

Lemma response_type_cases (event_type : json) :
  py_in_strs event_type ["list_response"; "tps_response"] = true →
  event_type = JStr "list_response" ∨ event_type = JStr "tps_response".
Proof.
  unfold py_in_strs; cbn [existsb].
  destruct event_type as [| | | |s| |]; cbn [py_eq_str orb]; try discriminate.
  intros H. apply orb_true_iff in H as [H|H].
  - left. by apply String.eqb_eq in H as ->.
  - rewrite orb_false_r in H. right. by apply String.eqb_eq in H as ->.
Qed.

(** With the channel known, a response frame goes straight to the
    routing block. *)
Lemma process_response WEBHOOK_URL data event_type (ch : channel) env n w :
  py_get data "type" = Val event_type →
  py_in_strs event_type ["list_response"; "tps_response"] = true →
  bot_channel w = Some ch →
  run (process_minecraft_event WEBHOOK_URL data) env n w =
  after [Did ReadChannel] (run (route_response event_type data) env n w).
Proof.
  intros Htype Hresp Hch. unfold process_minecraft_event.
  rewrite Htype. do 4 run_step. rewrite Hch.
  by destruct (response_type_cases _ Hresp) as [-> | ->].
Qed.

(** Before the channel is known, every frame is dropped at the guard. *)
Lemma process_unready WEBHOOK_URL data event_type env n w :
  py_get data "type" = Val event_type →
  bot_channel w = None →
  run (process_minecraft_event WEBHOOK_URL data) env n w =
  Result (Returned tt) w n [Did ReadChannel].
Proof.
  intros Htype Hch. unfold process_minecraft_event.
  rewrite Htype. do 4 run_step. by rewrite Hch.
Qed.

Lemma route_registered data event_type (rid : string) (ev st : loc) env n w :
  py_in_strs event_type ["list_response"; "tps_response"] = true →
  py_get data "request_id" = Val (JStr rid) →
  pending_requests w !! rid = Some (ev, st) →
  run (route_response event_type data) env n w =
  Result (Returned tt)
         (World (minecraft_client w) (bot_channel w) (pending_requests w)
                (<[ev := true]> (events w))
                (<[st := <["response" := data]> (dict_at w st)]> (dicts w))
                (next_loc w))
         n
         [Did (PendingContains rid); Did (PendingGetItem rid);
          Did (DictSetItem st "response" data); Did (EventSet ev)].
Proof.
  intros Hresp Hrid Hentry. unfold route_response, pending_contains, pending_getitem.
  rewrite Hresp, Hrid. do 4 run_step. rewrite Hentry.
  rewrite bool_decide_eq_true_2 by eauto.
  do 3 run_step. rewrite Hentry. by repeat run_step.
Qed.

Lemma is_response_for_inv rid data :
  is_response_for rid data = true →
  ∃ event_type,
    py_get data "type" = Val event_type ∧
    py_in_strs event_type ["list_response"; "tps_response"] = true ∧
    py_get data "request_id" = Val (JStr rid).
Proof.
  unfold is_response_for.
  destruct (py_get data "type") as [t|]; [|done].
  destruct (py_get data "request_id") as [[| | | |rid'| |]|]; try done.
  intros [Ht Hrid]%andb_true_iff. apply String.eqb_eq in Hrid as ->. eauto.
Qed.

(** C2 (amended). When the channel is known, a response frame whose
    [request_id] is registered is routed to the entry: the frame is
    stored in the entry's dict under "response", the entry's event is
    set, and nothing else is done: no awaited call is made, so no
    notification goes out. *)
Theorem response_routed WEBHOOK_URL data (rid : string) (ev st : loc) (ch : channel) env n w :
  is_response_for rid data = true →
  pending_requests w !! rid = Some (ev, st) →
  bot_channel w = Some ch →
  let r := run (process_minecraft_event WEBHOOK_URL data) env n w in
  outcome_of r = Returned tt ∧
  dict_at (world_of r) st !! "response" = Some data ∧
  event_flag (world_of r) ev = true ∧
  step_of r = n ∧
  trace_of r = [Did ReadChannel; Did (PendingContains rid); Did (PendingGetItem rid);
                Did (DictSetItem st "response" data); Did (EventSet ev)].
Proof.
  intros (event_type & Htype & Hresp & Hrid)%is_response_for_inv Hentry Hch r.
  subst r. rewrite (process_response _ _ _ _ _ _ _ Htype Hresp Hch).
  rewrite (route_registered _ _ _ _ _ _ _ _ Hresp Hrid Hentry).
  cbn [after outcome_of world_of step_of trace_of app].
  unfold dict_at, event_flag; cbn [dicts events].
  rewrite !lookup_insert_eq; cbn [from_option id]. by rewrite lookup_insert_eq.
Qed.

Lemma response_routed_witness :
  is_response_for "r1" list_response_r1 = true ∧
  pending_requests waiting !! "r1" = Some (0, 1) ∧
  bot_channel waiting = Some 9 ∧
  dict_at (world_of (run (process_minecraft_event None list_response_r1) calm 0 waiting)) 1
  !! "response" = Some list_response_r1.
Proof.
  do 3 (split; [reflexivity|]).
  exact (proj1 (proj2 (response_routed None list_response_r1 "r1" 0 1 9 calm 0 waiting
                         eq_refl eq_refl eq_refl))).
Defined.

(** C2 as stated fails: in [waiting_unready] the request "r1" is
    registered, but the channel is not known yet, and the response frame
    is dropped at the guard: the slot stays empty and the event clear. *)
Lemma response_routed_counterexample :
  is_response_for "r1" list_response_r1 = true ∧
  pending_requests waiting_unready !! "r1" = Some (0, 1) ∧
  let r := run (process_minecraft_event None list_response_r1) calm 0 waiting_unready in
  dict_at (world_of r) 1 !! "response" = None ∧
  event_flag (world_of r) 0 = false ∧
  trace_of r = [Did ReadChannel].
Proof. repeat split. Qed.

Lemma is_response_inv data :
  is_response data = true →
  ∃ event_type,
    py_get data "type" = Val event_type ∧
    py_in_strs event_type ["list_response"; "tps_response"] = true.
Proof.
  unfold is_response. destruct (py_get data "type") as [t|]; [eauto|done].
Qed.

(** The membership test of the routing block is [pending_has]. *)
Lemma run_pending_contains key env n w :
  outcome_of (run (pending_contains key) env n w) =
    match pending_has w key with Val b => Returned b | Exn e => Failed e end ∧
  world_of (run (pending_contains key) env n w) = w ∧
  step_of (run (pending_contains key) env n w) = n.
Proof. by destruct key. Qed.

(** C7 (amended). A response frame whose [request_id] is not in
    [pending_requests] changes nothing: the globals and the heap - hence
    every pending entry's slot and event - are unchanged and no awaited
    call is made.  When the membership test is [False] (an unknown or
    already removed id, a number, a boolean, null, or no [request_id] at
    all) nothing is raised either. *)
Theorem unknown_response_ignored WEBHOOK_URL data key env n w :
  is_response data = true →
  py_get data "request_id" = Val key →
  pending_has w key ≠ Val true →
  let r := run (process_minecraft_event WEBHOOK_URL data) env n w in
  (pending_has w key = Val false → outcome_of r = Returned tt) ∧
  world_of r = w ∧
  step_of r = n ∧
  ∀ l, slot_writes l (trace_of r) = 0 ∧ signal_triggers l (trace_of r) = 0.
Proof.
  intros (event_type & Htype & Hresp)%is_response_inv Hkey Hnone r. subst r.
  destruct (bot_channel w) as [ch|] eqn:Hch;
    [|by rewrite (process_unready _ _ _ _ _ _ Htype Hch)].
  rewrite (process_response _ _ _ _ _ _ _ Htype Hresp Hch).
  unfold route_response, pending_contains. rewrite Hresp, Hkey. do 2 run_step.
  destruct key as [| | | |rid| |]; repeat run_step; try done.
  cbn [pending_has] in Hnone.
  destruct (bool_decide (is_Some (pending_requests w !! rid))); [done|].
  by repeat run_step.
Qed.

(** The membership test raises for a request id that cannot be hashed;
    the loop body catches the exception like any other. *)
Lemma unhashable_request_id_raises WEBHOOK_URL data items (ch : channel) env n w :
  is_response data = true →
  py_get data "request_id" = Val (JList items) →
  bot_channel w = Some ch →
  run (process_minecraft_event WEBHOOK_URL data) env n w =
  Result (Failed (TypeError "unhashable type: 'list'")) w n [Did ReadChannel].
Proof.
  intros (event_type & Htype & Hresp)%is_response_inv Hkey Hch.
  rewrite (process_response _ _ _ _ _ _ _ Htype Hresp Hch).
  unfold route_response, pending_contains. rewrite Hresp, Hkey. by do 2 run_step.
Qed.

Lemma unknown_response_ignored_witness :
  is_response list_response_r1 = true ∧
  pending_has connected (JStr "r1") = Val false ∧
  outcome_of (run (process_minecraft_event None list_response_r1) calm 0 connected)
  = Returned tt.
Proof.
  do 2 (split; [reflexivity|]).
  refine (proj1 (unknown_response_ignored None list_response_r1 (JStr "r1")
                   calm 0 connected eq_refl eq_refl _) eq_refl).
  discriminate.
Defined.

(** C7 as stated fails: nothing is registered in [connected], so the
    [request_id] of the frame is not in the table, yet handling the frame
    raises [TypeError]: a JSON array cannot be hashed, and the membership
    test itself raises. *)
Lemma unknown_response_raises_counterexample :
  is_response tps_response_unhashable = true ∧
  pending_requests connected = ∅ ∧
  outcome_of (run (process_minecraft_event None tps_response_unhashable) calm 0 connected)
  = Failed (TypeError "unhashable type: 'list'").
Proof. split_and!; reflexivity. Qed.

Lemma slot_writes_app st tr1 tr2 :
  slot_writes st (tr1 ++ tr2) = slot_writes st tr1 + slot_writes st tr2.
Proof. unfold slot_writes. by rewrite List.filter_app, length_app. Qed.

Lemma signal_triggers_app ev tr1 tr2 :
  signal_triggers ev (tr1 ++ tr2) = signal_triggers ev tr1 + signal_triggers ev tr2.
Proof. unfold signal_triggers. by rewrite List.filter_app, length_app. Qed.

(** The loop body on a response frame for a registered request. *)
Lemma handle_message_response json_loads WEBHOOK_URL message data
    (rid : string) (ev st : loc) (ch : channel) env n w :
  json_loads message = Some data →
  is_response_for rid data = true →
  pending_requests w !! rid = Some (ev, st) →
  bot_channel w = Some ch →
  run (handle_message json_loads WEBHOOK_URL message) env n w =
  Result (Returned tt)
         (World (minecraft_client w) (bot_channel w) (pending_requests w)
                (<[ev := true]> (events w))
                (<[st := <["response" := data]> (dict_at w st)]> (dicts w))
                (next_loc w))
         n
         [Did ReadChannel; Did (PendingContains rid); Did (PendingGetItem rid);
          Did (DictSetItem st "response" data); Did (EventSet ev)].
Proof.
  intros Hloads (event_type & Htype & Hresp & Hrid)%is_response_for_inv Hentry Hch.
  unfold handle_message. rewrite run_try_except, Hloads. do 2 run_step.
  rewrite (process_response _ _ _ _ _ _ _ Htype Hresp Hch).
  by rewrite (route_registered _ _ _ _ _ _ _ _ Hresp Hrid Hentry).
Qed.

Lemma read_loop_cons json_loads WEBHOOK_URL (ws : handle) message rest env n w :
  answer (env n) (WsRecv ws) = Val tt →
  run (read_loop json_loads WEBHOOK_URL ws (message :: rest)) env n w =
  after [Called (WsRecv ws)]
    (and_then (run (handle_message json_loads WEBHOOK_URL message) env (S n)
                   (interfere (env n) w))
              (λ _ n' w', run (read_loop json_loads WEBHOOK_URL ws rest) env n' w')).
Proof.
  intros Hrecv. cbn [read_loop]. do 2 run_step. rewrite Hrecv.
  by rewrite run_bind.
Qed.

(** C3 (amended). Each response frame for a registered request that
    the read loop handles while the entry stays in the table (and the
    channel is known) writes the entry's slot once and sets its event
    once: a connection that delivers [length inbound] such frames makes
    as many writes and as many [set()] calls. *)
Theorem slot_written_per_frame json_loads WEBHOOK_URL (ws : handle) inbound
    (rid : string) (ev st : loc) (ch : channel) env n w :
  Forall (λ m, ∃ data, json_loads m = Some data ∧ is_response_for rid data = true) inbound →
  (∀ k, answer (env k) (WsRecv ws) = Val tt) →
  (∀ k w', pending_requests (interfere (env k) w') !! rid = pending_requests w' !! rid ∧
           bot_channel (interfere (env k) w') = bot_channel w') →
  pending_requests w !! rid = Some (ev, st) →
  bot_channel w = Some ch →
  let r := run (read_loop json_loads WEBHOOK_URL ws inbound) env n w in
  slot_writes st (trace_of r) = length inbound ∧
  signal_triggers ev (trace_of r) = length inbound ∧
  pending_requests (world_of r) !! rid = Some (ev, st).
Proof.
  intros Hall Hrecv Hrely. revert n w.
  induction Hall as [|message rest (data & Hloads & Hresp) _ IH]; intros n w Hentry Hch.
  - cbn [read_loop]. run_step. cbn.
    destruct (Hrely n w) as [-> _]. done.
  - cbn zeta. rewrite read_loop_cons by apply Hrecv.
    destruct (Hrely n w) as [Hp Hc].
    rewrite (handle_message_response _ _ _ data rid ev st ch) by congruence.
    unfold and_then; cbn [outcome_of world_of step_of trace_of after app].
    match goal with |- context [run _ env (S n) ?w1] =>
      specialize (IH (S n) w1); cbn [pending_requests bot_channel] in IH;
      destruct IH as (IHw & IHt & IHp); [congruence .. |]
    end.
    change (?a :: ?b :: ?c :: ?d :: ?e :: ?f :: ?l) with ([a; b; c; d; e; f] ++ l).
    rewrite slot_writes_app, signal_triggers_app, IHw, IHt.
    unfold slot_writes, signal_triggers; cbn [List.filter writes_slot triggers].
    rewrite !Nat.eqb_refl. split_and!; done.
Qed.

Lemma slot_written_per_frame_witness :
  slot_writes 1 (trace_of (run (read_loop toy_loads None 1 ["first"; "second"]) calm 0 waiting))
  = 2.
Proof.
  refine (proj1 (slot_written_per_frame toy_loads None 1 ["first"; "second"] "r1" 0 1 9
                   calm 0 waiting _ _ _ eq_refl eq_refl)).
  - repeat constructor; eexists; split; reflexivity.
  - intros k. reflexivity.
  - intros k w'. split; reflexivity.
Defined.

(** C3 as stated fails: while "r1" stays registered, two response
    frames carrying "r1" arrive on the connection; the slot is written
    twice (the second frame overwrites the first) and [set()] is called
    twice. *)
Lemma slot_written_once_counterexample :
  let r := run (read_loop toy_loads None 1 ["first"; "second"]) calm 0 waiting in
  pending_requests waiting !! "r1" = Some (0, 1) ∧
  pending_requests (world_of r) !! "r1" = Some (0, 1) ∧
  ¬ slot_writes 1 (trace_of r) ≤ 1 ∧
  ¬ signal_triggers 0 (trace_of r) ≤ 1 ∧
  dict_at (world_of r) 1 !! "response" = Some list_response_r1_later.
Proof.
  cbn zeta.
  assert (slot_writes 1 (trace_of (run (read_loop toy_loads None 1 ["first"; "second"])
                                       calm 0 waiting)) = 2) as -> by reflexivity.
  assert (signal_triggers 0 (trace_of (run (read_loop toy_loads None 1 ["first"; "second"])
                                           calm 0 waiting)) = 2) as -> by reflexivity.
  split_and!; [reflexivity | reflexivity | lia | lia | reflexivity].
Qed.

(** C8. A message that [json.loads] rejects is logged and dropped: its
    handling returns normally, changes nothing and makes no call, and
    the read loop goes on with the rest of the connection's frames. *)
Theorem malformed_frame_dropped json_loads WEBHOOK_URL (ws : handle) message rest env n w :
  json_loads message = None →
  run (handle_message json_loads WEBHOOK_URL message) env n w =
    Result (Returned tt) w n
           [Did (Logging ERROR [Lit "Received invalid JSON: "; Lit message])] ∧
  (answer (env n) (WsRecv ws) = Val tt →
   run (read_loop json_loads WEBHOOK_URL ws (message :: rest)) env n w =
   after [Called (WsRecv ws);
          Did (Logging ERROR [Lit "Received invalid JSON: "; Lit message])]
     (run (read_loop json_loads WEBHOOK_URL ws rest) env (S n) (interfere (env n) w))).
Proof.
  intros Hloads.
  assert (∀ n w, run (handle_message json_loads WEBHOOK_URL message) env n w =
                 Result (Returned tt) w n
                   [Did (Logging ERROR [Lit "Received invalid JSON: "; Lit message])]) as Hdrop.
  { intros n' w'. unfold handle_message.
    rewrite run_try_except, Hloads. by do 2 run_step. }
  split; [apply Hdrop|].
  intros Hrecv. rewrite read_loop_cons, Hdrop by done. by rewrite after_and_then.
Qed.

Lemma malformed_frame_dropped_witness :
  toy_loads "{oops" = None ∧
  run (handle_message toy_loads None "{oops") calm 0 waiting =
  Result (Returned tt) waiting 0
         [Did (Logging ERROR [Lit "Received invalid JSON: "; Lit "{oops"])].
Proof.
  split; [reflexivity|].
  exact (proj1 (malformed_frame_dropped toy_loads None 1 "{oops" [] calm 0 waiting eq_refl)).
Defined.

(** C10. When the handling of a decoded frame raises, the loop body
    catches the exception and logs it: the body returns normally with
    the globals as the handling left them, and the read loop goes on
    with the rest of the connection's frames. *)
Theorem processing_error_caught json_loads WEBHOOK_URL message data e env n w :
  json_loads message = Some data →
  outcome_of (run (process_minecraft_event WEBHOOK_URL data) env n w) = Failed e →
  let p := run (process_minecraft_event WEBHOOK_URL data) env n w in
  run (handle_message json_loads WEBHOOK_URL message) env n w =
    Result (Returned tt) (world_of p) (step_of p) (trace_of p ++ [error_log message e]) ∧
  ∀ (ws : handle) rest n0 w0,
    answer (env n0) (WsRecv ws) = Val tt → S n0 = n → interfere (env n0) w0 = w →
    run (read_loop json_loads WEBHOOK_URL ws (message :: rest)) env n0 w0 =
    after (Called (WsRecv ws) :: trace_of p ++ [error_log message e])
      (run (read_loop json_loads WEBHOOK_URL ws rest) env (step_of p) (world_of p)).
Proof.
  intros Hloads Hfail p.
  assert (run (handle_message json_loads WEBHOOK_URL message) env n w =
          Result (Returned tt) (world_of p) (step_of p)
                 (trace_of p ++ [error_log message e])) as Hcaught.
  { unfold handle_message. rewrite run_try_except, Hloads. do 2 run_step.
    rewrite after_nil. unfold or_else. rewrite Hfail. subst p.
    by destruct e. }
  split; [exact Hcaught|].
  intros ws rest n0 w0 Hrecv <- <-.
  rewrite read_loop_cons, Hcaught by done.
  by rewrite after_and_then.
Qed.

Lemma processing_error_caught_witness :
  toy_loads "nameless" = Some (JDict [("type", JStr "join"); ("uuid", JStr "u1")]) ∧
  outcome_of (run (process_minecraft_event None
                     (JDict [("type", JStr "join"); ("uuid", JStr "u1")])) calm 0 connected)
  = Failed (KeyError "player") ∧
  run (handle_message toy_loads None "nameless") calm 0 connected =
  Result (Returned tt) connected 0
         [Did ReadChannel;
          Did (Logging ERROR [Lit "Error processing message: "; Exc (KeyError "player")])].
Proof.
  do 2 (split; [reflexivity|]).
  exact (proj1 (processing_error_caught toy_loads None "nameless"
                  (JDict [("type", JStr "join"); ("uuid", JStr "u1")])
                  (KeyError "player") calm 0 connected eq_refl eq_refl)).
Defined.

(** ** The connection registry *)

Lemma run_channel_send x (ch : channel) env n w :
  bot_channel w = Some ch →
  run (channel_send x) env n w =
  Result (match answer (env n) (ChannelSend ch x) with
          | Val _ => Returned tt
          | Exn e => Failed e
          end)
         (interfere (env n) w) (S n) [Did ReadChannel; Called (ChannelSend ch x)].
Proof.
  intros Hch. unfold channel_send. do 2 run_step. rewrite Hch. run_step.
  by destruct (answer (env n) (ChannelSend ch x)) as [[]|e].
Qed.

(** The [finally] block of the handler, from any state. *)
Lemma world_after_cleanup env n w :
  world_of (run disconnect_cleanup env n w) =
  match bot_channel w with
  | None => cleared w
  | Some _ => interfere (env n) (cleared w)
  end.
Proof.
  unfold disconnect_cleanup. do 4 run_step. cbn [bot_channel]. fold (cleared w).
  destruct (bot_channel w) as [ch|] eqn:Hch; [|done].
  by rewrite (run_channel_send _ ch).
Qed.

(** C4 (amended). The disconnect cleanup of a connection clears the
    registry unconditionally.  Take any connection whose handler got
    past the online notification, and the moment its life is over - the
    peer has closed it, a receive has raised, whatever frames it
    delivered and whatever other coroutines did meanwhile.  The handler
    then ends with the globals of that moment with the registry emptied,
    whatever handle the registry held - followed, when the channel is
    known, by what other coroutines do while the offline notification is
    sent.  In particular, when the registry held the handle [other] of
    a connection that had replaced this one, nothing is registered at
    the end of the handler unless a coroutine registers a connection
    during the offline notification. *)
Theorem disconnect_clears_registry json_loads WEBHOOK_URL (ws : handle) inbound env n w :
  (∀ ch : channel, bot_channel w = Some ch →
                   answer (env n) (ChannelSend ch online_embed) = Val tt) →
  let life := run (connection_life json_loads WEBHOOK_URL ws inbound) env n w in
  let r := run (websocket_handler json_loads WEBHOOK_URL ws inbound) env n w in
  world_of r = match bot_channel (world_of life) with
               | None => cleared (world_of life)
               | Some _ => interfere (env (step_of life)) (cleared (world_of life))
               end ∧
  ∀ other : handle,
    minecraft_client (world_of life) = Some other →
    (∀ ch : channel, bot_channel (world_of life) = Some ch →
       ∀ w', minecraft_client (interfere (env (step_of life)) w') = minecraft_client w') →
    minecraft_client (world_of r) = None.
Proof.
  intros Honline life r.
  assert (∃ tr n1 w1, ∀ tail : task unit,
            run (perform (WriteClient (Some ws));;
                 perform (Logging INFO [Lit "Minecraft mod connected."]);;
                 ch ← perform ReadChannel;
                 match ch with
                 | Some _ => channel_send online_embed
                 | None => Ret tt
                 end;;
                 tail) env n w = after tr (run tail env n1 w1)) as (tr & n1 & w1 & Hpre).
  { set (w0 := World (Some ws) (bot_channel w) (pending_requests w) (events w) (dicts w)
                     (next_loc w)).
    exists ([Did (WriteClient (Some ws)); Did (Logging INFO [Lit "Minecraft mod connected."]);
             Did ReadChannel] ++
            match bot_channel w with
            | Some ch => [Did ReadChannel; Called (ChannelSend ch online_embed)]
            | None => []
            end),
           (match bot_channel w with Some _ => S n | None => n end),
           (match bot_channel w with Some _ => interfere (env n) w0 | None => w0 end).
    intros tail. do 6 run_step. cbn [bot_channel]. fold w0.
    destruct (bot_channel w) as [ch|] eqn:Hch.
    - rewrite run_bind, (run_channel_send _ ch) by done.
      rewrite (Honline ch eq_refl). unfold and_then.
      cbn [outcome_of world_of step_of trace_of after].
      by rewrite !after_after.
    - do 2 run_step. by rewrite !after_after. }
  assert (world_of r = world_of (run disconnect_cleanup env (step_of life) (world_of life)))
    as Hr.
  { subst life r. unfold websocket_handler, connection_life, logging.
    rewrite !Hpre. cbn [world_of step_of after].
    rewrite run_try_finally. by unfold and_finally. }
  rewrite Hr, world_after_cleanup. split; [done|].
  intros other _ Hkeep.
  destruct (bot_channel (world_of life)) as [ch|]; [|done].
  by rewrite (Hkeep ch eq_refl).
Qed.

Lemma disconnect_clears_registry_witness :
  minecraft_client
    (world_of (run (connection_life toy_loads None 1 []) replaced_later 0 ready)) = Some 2 ∧
  minecraft_client
    (world_of (run (websocket_handler toy_loads None 1 []) replaced_later 0 ready)) = None.
Proof.
  split; [reflexivity|].
  refine (proj2 (disconnect_clears_registry toy_loads None 1 [] replaced_later 0 ready _)
            2 eq_refl _).
  - intros ch _. reflexivity.
  - intros ch _ w'. reflexivity.
Defined.

(** C4 as stated fails: connection 2 arrives while the handler of
    connection 1 waits for a frame and replaces it in the registry; when
    connection 1 then closes, its cleanup empties the registry although
    connection 2 is still open. *)
Lemma displaced_cleanup_counterexample :
  let old := websocket_handler toy_loads None 1 [] in
  minecraft_client (interfere (replaced 0) (until_suspended old idle).1) = Some 2 ∧
  minecraft_client (world_of (run old replaced 0 idle)) ≠ Some 2 ∧
  minecraft_client (world_of (run old replaced 0 idle)) = None.
Proof. cbn zeta. split_and!; [reflexivity | discriminate | reflexivity]. Qed.

(** ** The outbound relay *)

(** C9 (amended). A message posted in the configured channel by an
    author that is neither the bot's own user nor a bot account is, when
    a connection is registered, serialised as
    [{type: discord_chat, author, message}] and sent over that
    connection.  When no connection is registered, any message is
    dropped: nothing is sent, nothing is raised, the globals are
    unchanged. *)
Theorem chat_forwarded json_dumps CHANNEL_ID client_user (m : message) env n w :
  (author_id m ≠ client_user → channel_id m = CHANNEL_ID → author_bot m = false →
   ∀ h : handle, minecraft_client w = Some h →
   let frame := json_dumps (JDict [("type", JStr "discord_chat");
                                   ("author", JStr (author_display_name m));
                                   ("message", JStr (message_content m))]) in
   run (on_message json_dumps CHANNEL_ID client_user m) env n w =
   Result (match answer (env n) (WsSend h frame) with
           | Val _ => Returned tt
           | Exn e => Failed e
           end)
          (interfere (env n) w) (S n)
          [Did ReadClient; Did ReadClient; Called (WsSend h frame)]) ∧
  (minecraft_client w = None →
   let r := run (on_message json_dumps CHANNEL_ID client_user m) env n w in
   outcome_of r = Returned tt ∧ world_of r = w ∧ step_of r = n).
Proof.
  unfold on_message. split.
  - intros Hauthor Hchannel Hbot h Hclient. cbn zeta.
    apply Z.eqb_neq in Hauthor. apply Z.eqb_eq in Hchannel.
    rewrite Hauthor, Hchannel, Hbot. cbn [orb negb].
    do 2 run_step. rewrite Hclient. unfold client_send. do 2 run_step. rewrite Hclient.
    run_step.
    by destruct (answer (env n) (WsSend h _)) as [[]|e].
  - intros Hclient.
    destruct ((author_id m =? client_user)%Z || negb (channel_id m =? CHANNEL_ID)%Z);
      [done|].
    do 2 run_step. by rewrite Hclient.
Qed.

Lemma chat_forwarded_witness :
  run (on_message toy_dumps 100 1 (Message 5 false "Alice" 100 "hello")) calm 0 connected =
  Result (Returned tt) connected 1
         [Did ReadClient; Did ReadClient; Called (WsSend 1 "discord_chat,Alice,hello")].
Proof.
  refine (proj1 (chat_forwarded toy_dumps 100 1 (Message 5 false "Alice" 100 "hello")
                   calm 0 connected) _ eq_refl eq_refl 1 eq_refl).
  discriminate.
Defined.

(** C9 as stated fails: with a connection registered, a message whose
    author is a bot account is not sent to the game process, and neither
    is a message posted in another channel. *)
Lemma chat_forwarded_counterexample :
  minecraft_client connected = Some 1 ∧
  trace_of (run (on_message toy_dumps 100 1 (Message 5 true "Relay" 100 "hello"))
                calm 0 connected) = [Did ReadClient] ∧
  trace_of (run (on_message toy_dumps 100 1 (Message 5 false "Alice" 200 "hello"))
                calm 0 connected) = [].
Proof. split_and!; reflexivity. Qed.

(** ** Worked runs *)

(** The matching response arrives during the wait: the command answers
    with the player list and leaves the table empty. *)
Example list_round_trip :
  let r := run (list_command toy_dumps "r1" 7) response_arrives 0 connected in
  outcome_of r = Returned tt ∧
  dict_at (world_of r) 1 !! "response" = Some list_response_r1 ∧
  event_flag (world_of r) 0 = true ∧
  pending_requests (world_of r) = ∅ ∧
  last (trace_of r) = Some (Did (PendingPop "r1")).
Proof. cbn zeta. split_and!; reflexivity. Qed.

(** No response: the wait times out and the user is told so. *)
Example list_times_out :
  run (list_command toy_dumps "r1" 7) calm 0 connected =
  Result (Returned tt)
         (World (Some 1) (Some 9) ∅ {[0 := false]} {[1 := ∅]} 2) 4
         [Did ReadClient; Called (Defer 7 false);
          Did NewEvent; Did NewDict; Did (PendingSetItem "r1" (0, 1));
          Did ReadClient; Called (WsSend 1 "get_list,r1");
          Called (EventWait 0 5);
          Called (FollowupSend 7 (Plain [Lit "서버가 응답하지 않습니다."]) false);
          Did (PendingPop "r1")].
Proof. reflexivity. Qed.

(** The connection goes away between the check and the send: the
    second read of the registry finds nothing and the send raises. *)
Example tps_connection_lost :
  run (tps_command toy_dumps "r1" 7) connection_drops 0 connected =
  Result (Returned tt)
         (World None (Some 9) ∅ {[0 := false]} {[1 := ∅]} 2) 2
         [Did ReadClient; Called (Defer 7 false);
          Did NewEvent; Did NewDict; Did (PendingSetItem "r1" (0, 1));
          Did ReadClient;
          Called (FollowupSend 7 (Plain [Lit "An error occurred: ";
                                         Exc (AttributeError "send")]) true);
          Did (PendingPop "r1")].
Proof. reflexivity. Qed.

(** The exception handler itself raises: the command fails, and the
    entry is removed all the same. *)
Example list_answer_fails :
  let r := run (list_command toy_dumps "r1" 7) followup_fails 0 connected in
  outcome_of r = Failed (LibraryError "HTTPException") ∧
  pending_requests (world_of r) = ∅.
Proof. cbn zeta. split; reflexivity. Qed.

(** A connection that delivers a join event, a malformed message, a
    join event without its player and a response for "r1": one join
    notification between the online and offline ones, two logged
    errors, one resolved request. *)
Example connection_lifetime :
  let r := run (websocket_handler toy_loads None 1 ["alice"; "{oops"; "nameless"; "first"])
               calm 0 waiting in
  outcome_of r = Returned tt ∧
  minecraft_client (world_of r) = None ∧
  event_flag (world_of r) 0 = true ∧
  length (List.filter (λ e, match e with Called (ChannelSend _ _) => true | _ => false end)
                      (trace_of r)) = 3 ∧
  length (List.filter (λ e, match e with Did (Logging ERROR _) => true | _ => false end)
                      (trace_of r)) = 2.
Proof. cbn zeta. split_and!; reflexivity. Qed.

(** ** Footprints of the coroutines *)

Lemma only_mono {A} (P Q : event → Prop) (t : task A) :
  (∀ e, P e → Q e) → only P t → only Q t.
Proof.
  intros HPQ. induction t as [a|e|o k IH|c k IH]; cbn [only]; [done | done | |].
  - intros [Ho Hk]. split; [by apply HPQ | intros x; by apply IH].
  - intros [Hc Hk]. split; [by apply HPQ | intros r; by apply IH].
Qed.

Lemma only_bind {A B} (P : event → Prop) (t : task A) (f : A → task B) :
  only P t → (∀ a, only P (f a)) → only P (t ≫= f).
Proof.
  unfold mbind, task_mbind. intros Ht Hf.
  induction t as [a|e|o k IH|c k IH]; cbn [only task_bind] in *; [done | done | |].
  - destruct Ht as [Ho Hk]. split; [done | intros x; by apply IH].
  - destruct Ht as [Hc Hk]. split; [done | intros r; by apply IH].
Qed.

Lemma only_try_except {A} (P : event → Prop) (t : task A) h :
  only P t → (∀ e, only P (h e)) → only P (try_except t h).
Proof.
  intros Ht Hh.
  induction t as [a|e|o k IH|c k IH]; cbn [only try_except] in *; [done | done | |].
  - destruct Ht as [Ho Hk]. split; [done | intros x; by apply IH].
  - destruct Ht as [Hc Hk]. split; [done | intros r; by apply IH].
Qed.

Lemma only_try_finally {A} (P : event → Prop) (t : task A) f :
  only P t → only P f → only P (try_finally t f).
Proof.
  intros Ht Hf.
  induction t as [a|e|o k IH|c k IH]; cbn [only try_finally] in *.
  - by apply only_bind.
  - by apply only_bind.
  - destruct Ht as [Ho Hk]. split; [done | intros x; by apply IH].
  - destruct Ht as [Hc Hk]. split; [done | intros r; by apply IH].
Qed.

Lemma only_lift {A} (P : event → Prop) (r : py A) : only P (lift r).
Proof. by destruct r. Qed.

Lemma only_await (P : event → Prop) (c : call) : P (Called c) → only P (await c).
Proof. intros Hc. split; [done | by intros []]. Qed.

Lemma only_perform (P : event → Prop) (o : op) : P (Did o) → only P (perform o).
Proof. by split. Qed.

(** Every event of every run of [t] satisfies [P]. *)
Lemma only_trace {A} (P : event → Prop) (t : task A) env n w :
  only P t → Forall P (trace_of (run t env n w)).
Proof.
  revert n w. induction t as [a|e|o k IH|c k IH]; intros n w; cbn [only run].
  - constructor.
  - constructor.
  - intros [Ho Hk]. constructor; [done | by apply IH].
  - intros [Hc Hk]. constructor; [done | by apply IH].
Qed.

(** A part of the globals that neither the operations of [t] nor the
    other coroutines change is the same at the end of the run. *)
Lemma only_preserves {A X} (f : world → X) (P : event → Prop) (t : task A) env n w :
  only P t →
  (∀ o w', P (Did o) → f (exec o w').2 = f w') →
  (∀ k w', f (interfere (env k) w') = f w') →
  f (world_of (run t env n w)) = f w.
Proof.
  intros Ht Hop Henv. revert n w.
  induction t as [a|e|o k IH|c k IH]; intros n w; cbn [only run] in *; [done | done | |].
  - destruct Ht as [Ho Hk]. cbn [after world_of]. rewrite IH by done. by apply Hop.
  - destruct Ht as [Hc Hk]. cbn [after world_of]. rewrite IH by done. apply Henv.
Qed.

Ltac only_step :=
  first
    [ apply only_bind; [|intros ?]
    | apply only_try_except; [|intros ?]
    | apply only_try_finally
    | apply only_lift
    | apply only_await; reflexivity
    | apply only_perform; reflexivity
    | match goal with
      | |- only _ (match ?x with _ => _ end) => destruct x
      | |- only _ (let _ := _ in _) => cbn zeta
      | |- only _ (Ret _) => exact I
      | |- only _ (Raise _) => exact I
      end ].

Lemma only_route_response event_type data :
  only (λ e, dispatcher_may e = true) (route_response event_type data).
Proof.
  unfold route_response, pending_contains, pending_getitem.
  repeat only_step.
Qed.

Lemma only_channel_send x : only (λ e, dispatcher_may e = true) (channel_send x).
Proof. unfold channel_send. repeat only_step. Qed.

Lemma only_process WEBHOOK_URL data :
  only (λ e, dispatcher_may e = true) (process_minecraft_event WEBHOOK_URL data).
Proof.
  unfold process_minecraft_event, logging.
  repeat first [ apply only_route_response | apply only_channel_send | only_step ].
Qed.

Lemma only_handle_message json_loads WEBHOOK_URL message :
  only (λ e, dispatcher_may e = true) (handle_message json_loads WEBHOOK_URL message).
Proof.
  unfold handle_message, logging.
  repeat first [ apply only_process | only_step ].
Qed.

Lemma dispatcher_within_handler ws e : dispatcher_may e = true → handler_may ws e = true.
Proof. destruct e as [[]|[]]; cbn; try done. Qed.

Lemma only_read_loop json_loads WEBHOOK_URL (ws : handle) inbound :
  only (λ e, handler_may ws e = true) (read_loop json_loads WEBHOOK_URL ws inbound).
Proof.
  induction inbound as [|message rest IH]; cbn [read_loop].
  - apply only_await. cbn. apply Nat.eqb_refl.
  - apply only_bind; [apply only_await; cbn; apply Nat.eqb_refl | intros _].
    apply only_bind; [|intros _; exact IH].
    eapply only_mono; [|apply only_handle_message]. apply dispatcher_within_handler.
Qed.

Lemma only_websocket_handler json_loads WEBHOOK_URL (ws : handle) inbound :
  only (λ e, handler_may ws e = true) (websocket_handler json_loads WEBHOOK_URL ws inbound).
Proof.
  unfold websocket_handler, disconnect_cleanup, logging.
  assert (∀ x, only (λ e, handler_may ws e = true) (channel_send x)) as Hsend.
  { intros x. eapply only_mono; [|apply only_channel_send]. apply dispatcher_within_handler. }
  apply only_bind; [apply only_perform; cbn; apply Nat.eqb_refl | intros _].
  repeat first [ apply Hsend | apply only_read_loop | only_step ].
Qed.

Lemma only_register (rid : string) (i : interaction) :
  only (λ e, command_may rid i e = true) (register rid).
Proof.
  unfold register.
  apply only_bind; [by apply only_perform | intros ev].
  apply only_bind; [by apply only_perform | intros st].
  apply only_bind; [|by intros _].
  apply only_perform. cbn. apply String.eqb_refl.
Qed.

Lemma only_command json_dumps (c : command) (rid : string) (i : interaction) :
  only (λ e, command_may rid i e = true) (command_tree json_dumps c rid i).
Proof.
  assert (∀ x b, command_may rid i (Called (FollowupSend i x b)) = true) as Hf
    by (intros; cbn; apply Nat.eqb_refl).
  destruct c; unfold command_tree, list_command, tps_command, client_send.
  all: apply only_bind; [by apply only_perform | intros [h|]];
    [|apply only_await; cbn; apply Nat.eqb_refl].
  all: apply only_bind; [apply only_await; cbn; apply Nat.eqb_refl | intros _].
  all: apply only_bind; [apply only_register | intros [ev st]].
  all: apply only_try_finally; [|apply only_perform; cbn; apply String.eqb_refl].
  all: repeat first [ apply only_await; apply Hf | only_step ].
Qed.

(** X1. Whatever the frame and whatever the calls answer, the
    dispatcher only reads the channel, looks the table up, resolves an
    entry, logs and talks to the chat platform: it never writes the
    connection registry, never adds or removes a pending request, and
    never sends anything to the game process. *)
Theorem dispatcher_footprint WEBHOOK_URL data env n w :
  Forall (λ e, dispatcher_may e = true)
         (trace_of (run (process_minecraft_event WEBHOOK_URL data) env n w)).
Proof. apply only_trace, only_process. Qed.

(** X2. A connection handler starts by registering its own handle;
    after that it only ever writes its own handle or [None] to the
    registry, receives only on its own socket, and otherwise does what
    the dispatcher does. *)
Theorem handler_footprint json_loads WEBHOOK_URL (ws : handle) inbound env n w :
  let r := run (websocket_handler json_loads WEBHOOK_URL ws inbound) env n w in
  head (trace_of r) = Some (Did (WriteClient (Some ws))) ∧
  Forall (λ e, handler_may ws e = true) (trace_of r).
Proof. split; [reflexivity | apply only_trace, only_websocket_handler]. Qed.

(** X3. A command handler stores and pops no request id but its own,
    answers no interaction but its own, and never writes the registry,
    a response slot or an event. *)
Theorem command_footprint json_dumps (c : command) (rid : string) (i : interaction) env n w :
  Forall (λ e, command_may rid i e = true)
         (trace_of (run (command_tree json_dumps c rid i) env n w)).
Proof. apply only_trace, only_command. Qed.

(** ** One-way events and unknown frames *)

Lemma unknown_type_tests (t : json) :
  py_in_strs t known_types = false →
  py_eq_str t "chat" = false ∧ py_eq_str t "join" = false ∧
  py_eq_str t "leave" = false ∧ py_eq_str t "death" = false ∧
  py_in_strs t ["list_response"; "tps_response"] = false.
Proof.
  unfold py_in_strs, known_types; cbn [existsb].
  intros H. rewrite !orb_false_iff in H. destruct H as (?&?&?&?&?&?&_).
  split_and!; try done. by rewrite !orb_false_iff.
Qed.

Lemma notice_type_tests (k : notice) :
  py_eq_str (JStr (notice_type k)) "chat" = false ∧
  py_in_strs (JStr (notice_type k)) ["list_response"; "tps_response"] = false.
Proof. by destruct k. Qed.

(** A dict raises nothing but [KeyError] when indexed by a string. *)
Lemma getitem_of_dict data key v key' e :
  py_get data key = Val v → py_getitem data key' = Exn e → e = KeyError key'.
Proof.
  destruct data; try discriminate. cbn. intros _.
  destruct (assoc key' fields); [discriminate | by intros [= <-]].
Qed.

(** X4. A frame whose type is none of the six known ones (or is not a
    string, or is missing) is ignored: nothing is raised, nothing is
    sent, the globals are unchanged. *)
Theorem unrecognised_frame_ignored WEBHOOK_URL data t env n w :
  py_get data "type" = Val t →
  py_in_strs t known_types = false →
  let r := run (process_minecraft_event WEBHOOK_URL data) env n w in
  outcome_of r = Returned tt ∧ world_of r = w ∧ step_of r = n.
Proof.
  intros Htype (Hchat & Hjoin & Hleave & Hdeath & Hresp)%unknown_type_tests r. subst r.
  unfold process_minecraft_event, route_response.
  rewrite Htype. do 4 run_step.
  destruct (bot_channel w); [|done].
  rewrite Hchat, Hjoin, Hleave, Hdeath, Hresp. by repeat run_step.
Qed.

Lemma unrecognised_frame_ignored_witness :
  world_of (run (process_minecraft_event None (JDict [("type", JStr "advancement")]))
                calm 0 waiting) = waiting.
Proof.
  exact (proj1 (proj2 (unrecognised_frame_ignored None (JDict [("type", JStr "advancement")])
                         (JStr "advancement") calm 0 waiting eq_refl eq_refl))).
Defined.

(** X5. Until the channel is known the dispatcher does nothing with
    any frame: no call is made and the globals are unchanged; it
    returns normally, except that a frame that is not a JSON object
    raises at [data.get]. *)
Theorem dispatcher_idle_without_channel WEBHOOK_URL data env n w :
  bot_channel w = None →
  let r := run (process_minecraft_event WEBHOOK_URL data) env n w in
  outcome_of r = match py_get data "type" with
                 | Val _ => Returned tt
                 | Exn e => Failed e
                 end ∧
  world_of r = w ∧ step_of r = n.
Proof.
  intros Hch r. subst r.
  destruct (py_get data "type") as [t|e] eqn:Htype.
  - by rewrite (process_unready _ _ _ _ _ _ Htype Hch).
  - unfold process_minecraft_event. rewrite Htype. by do 2 run_step.
Qed.

Lemma dispatcher_idle_without_channel_witness :
  bot_channel waiting_unready = None ∧
  world_of (run (process_minecraft_event None (JList [])) calm 0 waiting_unready)
  = waiting_unready.
Proof.
  split; [reflexivity|].
  exact (proj1 (proj2 (dispatcher_idle_without_channel None (JList []) calm 0
                         waiting_unready eq_refl))).
Defined.

(** X6. A join, leave or death frame that carries its two fields
    sends exactly one embed to the channel: green with the player and
    the join text, red with the player and the leave text, or dark red
    with the death message, each with the avatar of the uuid; the frame
    fails only if that send fails. *)
Theorem event_notified WEBHOOK_URL (k : notice) data v player_uuid (ch : channel) env n w :
  py_get data "type" = Val (JStr (notice_type k)) →
  py_getitem data (notice_key k) = Val v →
  py_getitem data "uuid" = Val player_uuid →
  bot_channel w = Some ch →
  let r := run (process_minecraft_event WEBHOOK_URL data) env n w in
  channel_sends (trace_of r) = [notice_embed k v player_uuid] ∧
  outcome_of r = match answer (env n) (ChannelSend ch (notice_embed k v player_uuid)) with
                 | Val _ => Returned tt
                 | Exn e => Failed e
                 end ∧
  world_of r = interfere (env n) w ∧ step_of r = S n.
Proof.
  intros Htype Hv Hu Hch r. subst r.
  unfold process_minecraft_event, route_response.
  rewrite Htype. do 4 run_step. rewrite Hch.
  destruct k; cbn [notice_type notice_key] in *.
  all: change (py_eq_str (JStr ?a) ?b) with (String.eqb a b); cbn [String.eqb Ascii.eqb Bool.eqb].
  all: rewrite Hv, Hu; repeat run_step; rewrite (run_channel_send _ ch) by done.
  all: match goal with
       | |- context [notice_embed ?k _ _] =>
           change (set_author _ _ _) with (notice_embed k v player_uuid)
       end.
  all: cbn [outcome_of world_of step_of trace_of].
  all: match goal with |- context [answer ?s ?c] => destruct (answer s c) as [[]|e] end.
  all: try vm_compute (py_in_strs _ _); by repeat run_step.
Qed.

Lemma event_notified_witness :
  channel_sends
    (trace_of (run (process_minecraft_event None
                      (JDict [("type", JStr "leave"); ("player", JStr "Alice");
                              ("uuid", JStr "u1")])) calm 0 connected))
  = [notice_embed leave_notice (JStr "Alice") (JStr "u1")].
Proof.
  exact (proj1 (event_notified None leave_notice
                  (JDict [("type", JStr "leave"); ("player", JStr "Alice"); ("uuid", JStr "u1")])
                  (JStr "Alice") (JStr "u1") 9 calm 0 connected
                  eq_refl eq_refl eq_refl eq_refl)).
Defined.

(** X7. A join, leave or death frame that lacks one of its two fields
    raises [KeyError] for the first missing one before anything is
    sent: no call is made and the globals are unchanged. *)
Theorem missing_field_sends_nothing WEBHOOK_URL (k : notice) data e (ch : channel) env n w :
  py_get data "type" = Val (JStr (notice_type k)) →
  bot_channel w = Some ch →
  py_getitem data (notice_key k) = Exn e ∨
  (∃ v, py_getitem data (notice_key k) = Val v ∧ py_getitem data "uuid" = Exn e) →
  let r := run (process_minecraft_event WEBHOOK_URL data) env n w in
  outcome_of r = Failed e ∧ world_of r = w ∧ step_of r = n ∧
  (e = KeyError (notice_key k) ∨ e = KeyError "uuid").
Proof.
  intros Htype Hch Hmiss r. subst r.
  assert (e = KeyError (notice_key k) ∨ e = KeyError "uuid") as He.
  { destruct Hmiss as [H|(v & _ & H)];
      [left | right]; exact (getitem_of_dict _ _ _ _ _ Htype H). }
  unfold process_minecraft_event.
  rewrite Htype. do 4 run_step. rewrite Hch.
  destruct k; cbn [notice_type notice_key] in *.
  all: change (py_eq_str (JStr ?a) ?b) with (String.eqb a b); cbn [String.eqb Ascii.eqb Bool.eqb].
  all: destruct Hmiss as [Hv|(v & Hv & Hu)]; rewrite Hv; do 2 run_step; try done.
  all: rewrite Hu; by do 2 run_step.
Qed.

Lemma missing_field_sends_nothing_witness :
  outcome_of (run (process_minecraft_event None
                     (JDict [("type", JStr "death"); ("message", JStr "Alice fell")]))
                  calm 0 connected) = Failed (KeyError "uuid").
Proof.
  refine (proj1 (missing_field_sends_nothing None death_notice
                   (JDict [("type", JStr "death"); ("message", JStr "Alice fell")])
                   (KeyError "uuid") 9 calm 0 connected eq_refl eq_refl _)).
  right. exists (JStr "Alice fell"). split; reflexivity.
Defined.

(** ** Chat mirroring *)

(** X8. Without a webhook URL (unset, or set to the empty string) a
    chat frame only logs a warning: nothing is posted, no field of the
    frame is looked at, and nothing is raised even if fields are
    missing. *)
Theorem chat_without_webhook WEBHOOK_URL data (ch : channel) env n w :
  WEBHOOK_URL = None ∨ WEBHOOK_URL = Some "" →
  py_get data "type" = Val (JStr "chat") →
  bot_channel w = Some ch →
  run (process_minecraft_event WEBHOOK_URL data) env n w =
  Result (Returned tt) w n
         [Did ReadChannel;
          Did (Logging WARNING [Lit "WEBHOOK_URL is not set. Cannot send chat message."])].
Proof.
  intros Hurl Htype Hch. unfold process_minecraft_event.
  rewrite Htype. do 4 run_step. rewrite Hch.
  assert (webhook_falsy WEBHOOK_URL = true) as -> by (by destruct Hurl as [-> | ->]).
  by repeat run_step.
Qed.

Lemma chat_without_webhook_witness :
  run (process_minecraft_event (Some "") (JDict [("type", JStr "chat")])) calm 0 connected =
  Result (Returned tt) connected 0
         [Did ReadChannel;
          Did (Logging WARNING [Lit "WEBHOOK_URL is not set. Cannot send chat message."])].
Proof.
  refine (chat_without_webhook (Some "") (JDict [("type", JStr "chat")]) 9 calm 0 connected
            _ eq_refl eq_refl).
  right. reflexivity.
Defined.

(** X9. With a webhook URL, a chat frame that carries player, uuid and
    message is posted once to that URL, with the player as username,
    the avatar of the uuid and the message as content, and never to the
    channel.  When the webhook accepts the post nothing is logged; when
    it answers with an error status, the body is read and an error with
    the status and the body is logged, and the frame still returns
    normally. *)
Theorem chat_mirrored url data player_name player_uuid message (ch : channel) resp env n w :
  url ≠ "" →
  py_get data "type" = Val (JStr "chat") →
  py_getitem data "player" = Val player_name →
  py_getitem data "uuid" = Val player_uuid →
  py_getitem data "message" = Val message →
  bot_channel w = Some ch →
  let post := WebhookPost url (WebhookPayload player_name (avatar player_uuid) message) in
  answer (env n) post = Val resp →
  let r := run (process_minecraft_event (Some url) data) env n w in
  (response_ok resp = true →
   r = Result (Returned tt) (interfere (env n) w) (S n)
              [Did ReadChannel; Called post; Did ReadChannel]) ∧
  (response_ok resp = false →
   ∀ body, answer (env (S n)) ResponseText = Val body →
   r = Result (Returned tt) (interfere (env (S n)) (interfere (env n) w)) (S (S n))
              [Did ReadChannel; Called post; Called ResponseText;
               Did (Logging ERROR [Lit "Failed to send webhook message: ";
                                   Status (response_status resp); Lit " "; Lit body]);
               Did ReadChannel]).
Proof.
  intros Hurl Htype Hp Hu Hm Hch post Hpost r. subst r post.
  unfold process_minecraft_event, route_response.
  rewrite Htype. do 4 run_step. rewrite Hch.
  assert (webhook_falsy (Some url) = false) as ->.
  { cbn. by apply String.eqb_neq. }
  change (py_eq_str (JStr "chat") "chat") with true. cbn match.
  rewrite Hp, Hu, Hm. do 8 run_step. cbn [from_option id]. rewrite Hpost.
  split.
  - intros Hok. rewrite Hok. by repeat run_step.
  - intros Hok body Hbody. rewrite Hok. do 3 run_step.
    rewrite Hbody. by repeat run_step.
Qed.

Lemma chat_mirrored_witness :
  run (process_minecraft_event (Some "https://hook")
         (JDict [("type", JStr "chat"); ("player", JStr "Alice"); ("uuid", JStr "u1");
                 ("message", JStr "hi")])) calm 0 connected =
  Result (Returned tt) connected 1
         [Did ReadChannel;
          Called (WebhookPost "https://hook"
                    (WebhookPayload (JStr "Alice") (avatar (JStr "u1")) (JStr "hi")));
          Did ReadChannel].
Proof.
  refine (proj1 (chat_mirrored "https://hook"
                   (JDict [("type", JStr "chat"); ("player", JStr "Alice"); ("uuid", JStr "u1");
                           ("message", JStr "hi")])
                   (JStr "Alice") (JStr "u1") (JStr "hi") 9 (HttpResponse true 204)
                   calm 0 connected _ eq_refl eq_refl eq_refl eq_refl eq_refl eq_refl) eq_refl).
  discriminate.
Defined.

(** ** The life of a connection *)

(** The loop body catches everything. *)
Lemma handle_message_returns json_loads WEBHOOK_URL message env n w :
  outcome_of (run (handle_message json_loads WEBHOOK_URL message) env n w) = Returned tt.
Proof.
  unfold handle_message. rewrite run_try_except. unfold or_else.
  set (body := run (_ ≫= _) env n w).
  destruct (outcome_of body) as [[]|e] eqn:Hbody; [exact Hbody|].
  by destruct e.
Qed.

Lemma read_loop_failure json_loads WEBHOOK_URL (ws : handle) inbound env n w e :
  outcome_of (run (read_loop json_loads WEBHOOK_URL ws inbound) env n w) = Failed e →
  ∃ k, answer (env k) (WsRecv ws) = Exn e.
Proof.
  revert n w. induction inbound as [|message rest IH]; intros n w.
  - cbn [read_loop]. run_step.
    destruct (answer (env n) (WsRecv ws)) as [[]|e0] eqn:Hrecv; [done|].
    intros [= <-]. eauto.
  - destruct (answer (env n) (WsRecv ws)) as [[]|e0] eqn:Hrecv.
    + rewrite read_loop_cons by done. unfold and_then.
      rewrite handle_message_returns. cbn [outcome_of after]. apply IH.
    + cbn [read_loop]. do 2 run_step. rewrite Hrecv. intros [= <-]. eauto.
Qed.

Lemma receives_app ws tr1 tr2 :
  receives ws (tr1 ++ tr2) = receives ws tr1 + receives ws tr2.
Proof. unfold receives. by rewrite List.filter_app, length_app. Qed.

Lemma receives_dispatcher ws tr :
  Forall (λ e, dispatcher_may e = true) tr → receives ws tr = 0.
Proof.
  unfold receives. induction 1 as [|e tr He _ IH]; [done|].
  cbn [List.filter]. by destruct e as [[]|[]].
Qed.

(** X10. The read loop ends only with the connection: it fails only
    with an exception raised by a receive - never with one raised
    while handling a frame - and when every receive succeeds it returns
    normally after waiting once per frame and once more for the close. *)
Theorem read_loop_ends_with_connection json_loads WEBHOOK_URL (ws : handle) inbound env n w :
  let r := run (read_loop json_loads WEBHOOK_URL ws inbound) env n w in
  (∀ e, outcome_of r = Failed e → ∃ k, answer (env k) (WsRecv ws) = Exn e) ∧
  ((∀ k, answer (env k) (WsRecv ws) = Val tt) →
   outcome_of r = Returned tt ∧ receives ws (trace_of r) = S (length inbound)).
Proof.
  split; [intros e; apply read_loop_failure|].
  intros Hrecv. revert n w. induction inbound as [|message rest IH]; intros n w.
  - cbn [read_loop]. run_step. rewrite Hrecv. split; [done|].
    unfold receives; cbn. by rewrite Nat.eqb_refl.
  - rewrite read_loop_cons by done. unfold and_then.
    rewrite handle_message_returns.
    destruct (IH (step_of (run (handle_message json_loads WEBHOOK_URL message) env (S n)
                               (interfere (env n) w)))
                 (world_of (run (handle_message json_loads WEBHOOK_URL message) env (S n)
                                (interfere (env n) w)))) as [Hout Hcount].
    split; [exact Hout|].
    cbn [trace_of after]. rewrite !receives_app, Hcount.
    rewrite (receives_dispatcher ws (trace_of (run (handle_message _ _ _) _ _ _)))
      by apply only_trace, only_handle_message.
    unfold receives at 1; cbn. by rewrite Nat.eqb_refl.
Qed.

Lemma read_loop_ends_with_connection_witness :
  receives 1 (trace_of (run (read_loop toy_loads None 1 ["alice"; "{oops"]) calm 0 connected))
  = 3.
Proof.
  refine (proj2 (proj2 (read_loop_ends_with_connection toy_loads None 1 ["alice"; "{oops"]
                          calm 0 connected) _)).
  intros k. reflexivity.
Defined.

Lemma run_disconnect_cleanup env n w :
  (∀ k ch x, answer (env k) (ChannelSend ch x) = Val tt) →
  outcome_of (run disconnect_cleanup env n w) = Returned tt ∧
  head (trace_of (run disconnect_cleanup env n w)) = Some (Did (WriteClient None)).
Proof.
  intros Hsend. unfold disconnect_cleanup. do 4 run_step. cbn [bot_channel].
  destruct (bot_channel w) as [ch|] eqn:Hch; [|done].
  rewrite (run_channel_send _ ch) by done. by rewrite Hsend.
Qed.

(** X11. As long as the channel accepts the notifications, a
    connection that closes - normally, or with [ConnectionClosed]
    raised by a receive - ends its handler normally, whatever frames it
    delivered and however their handling went, and the handler clears
    the registry on the way out. *)
Theorem handler_survives_disconnect json_loads WEBHOOK_URL (ws : handle) inbound env n w :
  (∀ k ch x, answer (env k) (ChannelSend ch x) = Val tt) →
  (∀ k, answer (env k) (WsRecv ws) = Val tt ∨
        answer (env k) (WsRecv ws) = Exn ConnectionClosed) →
  let r := run (websocket_handler json_loads WEBHOOK_URL ws inbound) env n w in
  outcome_of r = Returned tt ∧ In (Did (WriteClient None)) (trace_of r).
Proof.
  intros Hsend Hrecv r. subst r. unfold websocket_handler, logging.
  do 6 run_step. cbn [bot_channel].
  assert (∀ n' w',
    let body := run (try_finally
                       (try_except (read_loop json_loads WEBHOOK_URL ws inbound)
                          (λ e, match e with
                                | ConnectionClosed =>
                                    logging INFO [Lit "Minecraft mod disconnected."]
                                | _ => Raise e
                                end))
                       disconnect_cleanup) env n' w' in
    outcome_of body = Returned tt ∧ In (Did (WriteClient None)) (trace_of body)) as Hbody.
  { intros n' w'. cbn zeta. rewrite run_try_finally, run_try_except.
    unfold and_finally, or_else. cbn [outcome_of trace_of].
    set (loop := run (read_loop json_loads WEBHOOK_URL ws inbound) env n' w').
    assert (∀ n'' w'', outcome_of (run disconnect_cleanup env n'' w'') = Returned tt ∧
                       In (Did (WriteClient None)) (trace_of (run disconnect_cleanup env n'' w'')))
      as Hclean.
    { intros n'' w''. destruct (run_disconnect_cleanup env n'' w'' Hsend) as [Hout Hhead].
      split; [done|]. destruct (trace_of (run disconnect_cleanup env n'' w'')); [done|].
      injection Hhead as ->. by left. }
    destruct (outcome_of loop) as [[]|e] eqn:Hloop.
    - destruct (Hclean (step_of loop) (world_of loop)) as [-> Hin].
      split; [done|]. apply in_or_app. by right.
    - destruct (read_loop_failure _ _ _ _ _ _ _ _ Hloop) as [k Hk].
      destruct (Hrecv k) as [Hv|Hc]; [congruence|].
      assert (e = ConnectionClosed) as -> by congruence.
      unfold logging, perform.
      cbn [run after exec fst snd outcome_of world_of step_of trace_of].
      match goal with |- context [run disconnect_cleanup env ?a ?b] =>
        destruct (Hclean a b) as [-> Hin] end.
      split; [done|]. apply in_or_app. by right. }
  unfold logging in Hbody.
  destruct (bot_channel w) as [ch|] eqn:Hch.
  - rewrite run_bind, (run_channel_send _ ch) by done. rewrite Hsend.
    unfold and_then. cbn [outcome_of world_of step_of trace_of after].
    match goal with |- context [run (try_finally _ _) env ?a ?b] =>
      destruct (Hbody a b) as [-> Hin] end.
    split; [done|]. cbn [app]. do 5 right. exact Hin.
  - do 2 run_step.
    match goal with |- context [run (try_finally _ _) env ?a ?b] =>
      destruct (Hbody a b) as [-> Hin] end.
    split; [done|]. cbn [app]. do 3 right. exact Hin.
Qed.

Lemma handler_survives_disconnect_witness :
  outcome_of (run (websocket_handler toy_loads None 1 ["nameless"]) (breaks_at 2) 0 connected)
  = Returned tt.
Proof.
  refine (proj1 (handler_survives_disconnect toy_loads None 1 ["nameless"] (breaks_at 2)
                   0 connected _ _)).
  - intros k ch x. reflexivity.
  - intros k. unfold breaks_at. cbn [answer recv_answer].
    destruct (k <? 2); [left | right]; reflexivity.
Defined.

(** X12. When the online notification fails, the handler fails with
    the same exception before it enters its [try] block: the cleanup
    does not run, so the registry keeps the handle of the connection
    and no offline notification is sent. *)
Theorem online_failure_skips_cleanup json_loads WEBHOOK_URL (ws : handle) inbound
    (ch : channel) e env n w :
  bot_channel w = Some ch →
  answer (env n) (ChannelSend ch online_embed) = Exn e →
  run (websocket_handler json_loads WEBHOOK_URL ws inbound) env n w =
  Result (Failed e)
         (interfere (env n)
            (World (Some ws) (bot_channel w) (pending_requests w) (events w) (dicts w)
                   (next_loc w)))
         (S n)
         [Did (WriteClient (Some ws)); Did (Logging INFO [Lit "Minecraft mod connected."]);
          Did ReadChannel; Did ReadChannel; Called (ChannelSend ch online_embed)].
Proof.
  intros Hch Hsend. unfold websocket_handler, logging. do 6 run_step.
  cbn [bot_channel]. rewrite Hch.
  rewrite run_bind, (run_channel_send _ ch) by done. by rewrite Hsend.
Qed.

Lemma online_failure_skips_cleanup_witness :
  minecraft_client
    (world_of (run (websocket_handler toy_loads None 2 ["alice"]) refusing 0 connected))
  = Some 2.
Proof.
  exact (f_equal (λ r, minecraft_client (world_of r))
           (online_failure_skips_cleanup toy_loads None 2 ["alice"] 9
              (LibraryError "Forbidden") refusing 0 connected eq_refl eq_refl)).
Defined.

(** ** The commands and the table *)

Lemma waiter_reads_only o w : waiter_may (Did o) = true → (exec o w).2 = w.
Proof. by destruct o. Qed.

(** As long as no other coroutine changes the table, an invocation
    with a request id that is not in the table leaves the table as it
    found it, however the invocation went. *)
Lemma run_register (rid : string) env n w :
  run (register rid) env n w =
  Result (Returned (next_loc w, S (next_loc w)))
         (World (minecraft_client w) (bot_channel w)
                (<[rid := (next_loc w, S (next_loc w))]> (pending_requests w))
                (<[next_loc w := false]> (events w))
                (<[S (next_loc w) := ∅]> (dicts w))
                (S (S (next_loc w))))
         n
         [Did NewEvent; Did NewDict; Did (PendingSetItem rid (next_loc w, S (next_loc w)))].
Proof. reflexivity. Qed.

(** A step of symbolic execution that also reads the fields of a
    world that has just been built. *)
Ltac run_step_w :=
  first [ rewrite run_register | run_step ];
  cbn [outcome_of world_of step_of trace_of after app
       minecraft_client bot_channel pending_requests events dicts next_loc].

Lemma command_restores_table json_dumps (c : command) (rid : string) (i : interaction) env n w :
  (∀ k w', pending_requests (interfere (env k) w') = pending_requests w') →
  pending_requests w !! rid = None →
  pending_requests (world_of (run (command_tree json_dumps c rid i) env n w))
  = pending_requests w.
Proof.
  intros Henv Hfresh.
  destruct c; unfold command_tree, list_command, tps_command.
  all: do 2 run_step_w.
  all: destruct (minecraft_client w) as [h|]; [|run_step_w; apply Henv].
  all: do 2 run_step_w.
  all: destruct (answer (env n) (Defer i false)) as [[]|e]; [|apply Henv].
  all: do 2 run_step_w.
  all: rewrite run_try_finally; unfold and_finally; cbn [world_of].
  all: match goal with
       | |- context [run (perform (PendingPop ?r)) ?e ?a ?b] =>
           change (run (perform (PendingPop r)) e a b)
             with (Result (Returned tt) (exec (PendingPop r) b).2 a [Did (PendingPop r)])
       end; cbn [world_of exec snd pending_requests].
  all: match goal with
       | |- context [pending_requests (world_of (run ?t ?e ?a ?b))] =>
           rewrite (only_preserves pending_requests (λ x, waiter_may x = true) t e a b)
       end;
    [ cbn [pending_requests]; rewrite Henv; by apply delete_insert_id
    | by unfold client_send, logging; repeat only_step
    | intros o w' Ho; by rewrite waiter_reads_only
    | exact Henv ].
Qed.

(** X13. The table does not grow: when no other coroutine changes
    [pending_requests], any number of [/list] and [/tps] invocations
    run one after the other, with request ids that were not in the
    table, leave the table exactly as it was - whether each of them was
    answered, timed out or failed. *)
Theorem commands_do_not_leak json_dumps (calls : list (command * string * interaction))
    env n w :
  (∀ k w', pending_requests (interfere (env k) w') = pending_requests w') →
  Forall (λ x, pending_requests w !! x.1.2 = None) calls →
  pending_requests
    (run_each (map (λ x, command_tree json_dumps x.1.1 x.1.2 x.2) calls) env n w)
  = pending_requests w.
Proof.
  intros Henv Hfresh. revert n w Hfresh.
  induction calls as [|[[c rid] i] rest IH]; intros n w Hfresh; [done|].
  apply Forall_cons in Hfresh as [Hrid Hrest]. cbn [map run_each fst snd] in *.
  pose proof (command_restores_table json_dumps c rid i env n w Henv Hrid) as Hsame.
  rewrite IH; [exact Hsame|]. by rewrite Hsame.
Qed.

Lemma commands_do_not_leak_witness :
  pending_requests
    (run_each (map (λ x, command_tree toy_dumps x.1.1 x.1.2 x.2)
                   [(list_cmd, "r2", 7); (tps_cmd, "r3", 8); (list_cmd, "r2", 9)])
              calm 0 waiting)
  = pending_requests waiting.
Proof.
  refine (commands_do_not_leak toy_dumps
            [(list_cmd, "r2", 7); (tps_cmd, "r3", 8); (list_cmd, "r2", 9)] calm 0 waiting _ _).
  - intros k w'. reflexivity.
  - repeat constructor.
Defined.

(** ** A request and its response *)





Lemma run_followup (i : interaction) x b env n w :
  @run unit (await (FollowupSend i x b)) env n w =
  Result (match answer (env n) (FollowupSend i x b) with
          | Val _ => Returned tt
          | Exn e => Failed e
          end)
         (interfere (env n) w) (S n) [Called (FollowupSend i x b)].
Proof.
  unfold await; cbn [run reply after trace_of outcome_of world_of step_of app].
  by destruct (answer (env n) (FollowupSend i x b)) as [[]|e].
Qed.

(** X15. When the send to the game process raises, the command does
    not wait: it tells the user at once - the timeout text if the send
    raised [TimeoutError], the error text with the exception otherwise -
    and removes its entry; it fails only if that answer fails. *)
Theorem send_failure_reported json_dumps (c : command) (rid : string) (i : interaction)
    (h : handle) e env n w :
  minecraft_client w = Some h →
  answer (env n) (Defer i false) = Val tt →
  (∀ w', interfere (env n) w' = w') →
  answer (env (S n)) (WsSend h (json_dumps (request_of c rid))) = Exn e →
  let r := run (command_tree json_dumps c rid i) env n w in
  trace_of r =
    [Did ReadClient; Called (Defer i false);
     Did NewEvent; Did NewDict; Did (PendingSetItem rid (next_loc w, S (next_loc w)));
     Did ReadClient; Called (WsSend h (json_dumps (request_of c rid)));
     Called (failure_reply c i e); Did (PendingPop rid)] ∧
  outcome_of r = match answer (env (S (S n))) (failure_reply c i e) with
                 | Val _ => Returned tt
                 | Exn x => Failed x
                 end.
Proof.
  intros Hclient Hdefer Hq0 Hsend r. subst r.
  destruct c; unfold command_tree, list_command, tps_command, client_send, request_of in *.
  all: do 2 run_step_w; rewrite Hclient; do 2 run_step_w; rewrite Hdefer, Hq0.
  all: do 2 run_step_w.
  all: rewrite run_try_finally, run_try_except; unfold and_finally, or_else.
  all: cbn [trace_of outcome_of].
  all: do 4 run_step_w; rewrite Hclient; run_step_w; rewrite Hsend.
  all: cbn [outcome_of world_of step_of trace_of after app].
  all: destruct e; rewrite run_followup; cbn [failure_reply].
  all: cbn [outcome_of world_of step_of trace_of after app].
  all: match goal with |- context [answer ?s ?c] => destruct (answer s c) as [[]|?] end.
  all: by repeat run_step_w.
Qed.

Lemma send_failure_reported_witness :
  trace_of (run (command_tree toy_dumps tps_cmd "r1" 7) send_breaks 0 connected) =
  [Did ReadClient; Called (Defer 7 false);
   Did NewEvent; Did NewDict; Did (PendingSetItem "r1" (0, 1));
   Did ReadClient; Called (WsSend 1 (toy_dumps (request_of tps_cmd "r1")));
   Called (failure_reply tps_cmd 7 ConnectionClosed); Did (PendingPop "r1")].
Proof.
  refine (proj1 (send_failure_reported toy_dumps tps_cmd "r1" 7 1 ConnectionClosed
                   send_breaks 0 connected eq_refl eq_refl _ eq_refl)).
  intros w'. reflexivity.
Defined.

(** X16. When the connection has gone by the time the command sends
    (the registry was cleared while the command deferred its answer),
    nothing is sent to any socket: the second read of the registry finds
    [None], the user is told of an error, and the entry is removed. *)
Theorem lost_connection_reported json_dumps (c : command) (rid : string) (i : interaction)
    (h : handle) env n w :
  minecraft_client w = Some h →
  answer (env n) (Defer i false) = Val tt →
  minecraft_client (interfere (env n) w) = None →
  let r := run (command_tree json_dumps c rid i) env n w in
  let ev := next_loc (interfere (env n) w) in
  trace_of r =
    [Did ReadClient; Called (Defer i false);
     Did NewEvent; Did NewDict; Did (PendingSetItem rid (ev, S ev));
     Did ReadClient; Called (failure_reply c i (AttributeError "send"));
     Did (PendingPop rid)] ∧
  socket_sends (trace_of r) = [].
Proof.
  intros Hclient Hdefer Hgone r. subst r.
  destruct c; unfold command_tree, list_command, tps_command, client_send in *.
  all: do 2 run_step_w; rewrite Hclient; do 2 run_step_w; rewrite Hdefer.
  all: do 2 run_step_w.
  all: rewrite run_try_finally, run_try_except; unfold and_finally, or_else.
  all: cbn [trace_of outcome_of].
  all: do 4 run_step_w; rewrite Hgone.
  all: cbn [run outcome_of world_of step_of trace_of after app].
  all: rewrite run_followup; cbn [failure_reply].
  all: cbn [outcome_of world_of step_of trace_of after app].
  all: unfold perform; cbn [run trace_of after app].
  all: by split.
Qed.

Lemma lost_connection_reported_witness :
  socket_sends (trace_of (run (command_tree toy_dumps tps_cmd "r1" 7) connection_drops 0
                              connected)) = [].
Proof.
  exact (proj2 (lost_connection_reported toy_dumps tps_cmd "r1" 7 1 connection_drops 0
                  connected eq_refl eq_refl eq_refl)).
Defined.

(** X17. A request that nobody answers: when the send goes through
    and nothing sets the request's event during the wait, the command
    tells the user that the server did not respond, and nothing of the
    slot is read. *)
Theorem unanswered_request_times_out json_dumps (c : command) (rid : string)
    (i : interaction) (h : handle) env n w :
  minecraft_client w = Some h →
  answer (env n) (Defer i false) = Val tt →
  (∀ w', interfere (env n) w' = w') →
  answer (env (S n)) (WsSend h (json_dumps (request_of c rid))) = Val tt →
  (∀ w', interfere (env (S n)) w' = w') →
  (∀ w', event_flag (interfere (env (S (S n))) w') (next_loc w) = event_flag w' (next_loc w)) →
  let r := run (command_tree json_dumps c rid i) env n w in
  trace_of r =
    [Did ReadClient; Called (Defer i false);
     Did NewEvent; Did NewDict; Did (PendingSetItem rid (next_loc w, S (next_loc w)));
     Did ReadClient; Called (WsSend h (json_dumps (request_of c rid)));
     Called (EventWait (next_loc w) 5);
     Called (failure_reply c i TimeoutError); Did (PendingPop rid)].
Proof.
  intros Hclient Hdefer Hq0 Hsend Hq1 Hflag r. subst r.
  destruct c; unfold command_tree, list_command, tps_command, client_send, request_of in *.
  all: do 2 run_step_w; rewrite Hclient; do 2 run_step_w; rewrite Hdefer, Hq0.
  all: do 2 run_step_w.
  all: rewrite run_try_finally, run_try_except; unfold and_finally, or_else.
  all: cbn [trace_of outcome_of].
  all: do 4 run_step_w; rewrite Hclient; run_step_w; rewrite Hsend, Hq1.
  all: do 2 run_step_w; rewrite Hflag.
  all: unfold event_flag at 1 2 3 4 5 6; cbn [events]; rewrite !lookup_insert_eq;
    cbn [from_option id outcome_of world_of step_of trace_of after app].
  all: rewrite run_followup; cbn [failure_reply trace_of after app].
  all: unfold perform; cbn [run trace_of after app]; reflexivity.
Qed.

Lemma unanswered_request_times_out_witness :
  trace_of (run (command_tree toy_dumps list_cmd "r1" 7) calm 0 connected) =
  [Did ReadClient; Called (Defer 7 false);
   Did NewEvent; Did NewDict; Did (PendingSetItem "r1" (0, 1));
   Did ReadClient; Called (WsSend 1 (toy_dumps (request_of list_cmd "r1")));
   Called (EventWait 0 5);
   Called (failure_reply list_cmd 7 TimeoutError); Did (PendingPop "r1")].
Proof.
  refine (unanswered_request_times_out toy_dumps list_cmd "r1" 7 1 calm 0 connected
            eq_refl eq_refl _ eq_refl _ _); intros w'; reflexivity.
Defined.

(** A response frame for a request id that is not in the table. *)
Lemma process_unregistered WEBHOOK_URL data (rid : string) env n w :
  is_response_for rid data = true →
  pending_requests w !! rid = None →
  let r := run (process_minecraft_event WEBHOOK_URL data) env n w in
  outcome_of r = Returned tt ∧ world_of r = w ∧ step_of r = n.
Proof.
  intros (t & Htype & Hresp & Hrid)%is_response_for_inv Hnone r. subst r.
  destruct (bot_channel w) as [ch|] eqn:Hch;
    [|by rewrite (process_unready _ _ _ _ _ _ Htype Hch)].
  rewrite (process_response _ _ _ _ _ _ _ Htype Hresp Hch).
  unfold route_response, pending_contains. rewrite Hresp, Hrid. do 4 run_step.
  rewrite Hnone. rewrite bool_decide_eq_false_2 by (by intros [? ?]).
  by repeat run_step.
Qed.

(** X18. A late response is harmless: once an invocation that
    registered its request id has finished, a response frame carrying
    that id is dropped by the dispatcher - nothing is raised, nothing is
    sent, the globals are unchanged. *)
Theorem late_response_dropped json_dumps WEBHOOK_URL (c : command) (rid : string)
    (i : interaction) data env n w env' n' :
  let r := run (command_tree json_dumps c rid i) env n w in
  registered rid (trace_of r) = true →
  is_response_for rid data = true →
  let r' := run (process_minecraft_event WEBHOOK_URL data) env' n' (world_of r) in
  outcome_of r' = Returned tt ∧ world_of r' = world_of r ∧ step_of r' = n'.
Proof.
  intros r Hreg Hresp. apply process_unregistered with (rid := rid); [done|].
  subst r. revert Hreg.
  destruct c; unfold command_tree, list_command, tps_command.
  all: do 2 run_step.
  all: destruct (minecraft_client w) as [h|]; [|run_step; by cbn].
  all: do 2 run_step.
  all: destruct (answer (env n) (Defer i false)) as [[]|e]; [|by cbn].
  all: intros _; rewrite run_bind, run_register; unfold and_then;
    cbn [outcome_of world_of step_of trace_of after].
  all: apply finally_pop.
Qed.

Lemma late_response_dropped_witness :
  world_of (run (process_minecraft_event None list_response_r1) calm 0
                (world_of (run (command_tree toy_dumps list_cmd "r1" 7) calm 0 connected)))
  = world_of (run (command_tree toy_dumps list_cmd "r1" 7) calm 0 connected).
Proof.
  exact (proj1 (proj2 (late_response_dropped toy_dumps None list_cmd "r1" 7 list_response_r1
                         calm 0 connected calm 0 eq_refl eq_refl))).
Defined.

(** ** Messages that are not forwarded *)

(** X19. The relay never forwards the bot's own messages, messages of
    other bot accounts, or messages posted outside the configured
    channel: for these nothing is sent to the game process, nothing is
    raised and the globals are unchanged, connected or not. *)
Theorem foreign_messages_ignored json_dumps CHANNEL_ID client_user (m : message) env n w :
  author_id m = client_user ∨ channel_id m ≠ CHANNEL_ID ∨ author_bot m = true →
  let r := run (on_message json_dumps CHANNEL_ID client_user m) env n w in
  outcome_of r = Returned tt ∧ world_of r = w ∧ step_of r = n ∧
  socket_sends (trace_of r) = [].
Proof.
  intros Hforeign r. subst r. unfold on_message.
  destruct ((author_id m =? client_user)%Z || negb (channel_id m =? CHANNEL_ID)%Z)
    eqn:Hfilter; [done|].
  apply orb_false_iff in Hfilter as [Hauthor Hchannel].
  apply Z.eqb_neq in Hauthor. apply negb_false_iff, Z.eqb_eq in Hchannel.
  destruct Hforeign as [?|[?|Hbot]]; [done | done |].
  do 2 run_step. rewrite Hbot. by destruct (minecraft_client w).
Qed.

Lemma foreign_messages_ignored_witness :
  socket_sends (trace_of (run (on_message toy_dumps 100 1 (Message 1 false "Choibot" 100 "hi"))
                              calm 0 connected)) = [].
Proof.
  refine (proj2 (proj2 (proj2 (foreign_messages_ignored toy_dumps 100 1
                                 (Message 1 false "Choibot" 100 "hi") calm 0 connected _)))).
  left. reflexivity.
Defined.

(** ** The embeds of the commands *)

Lemma add_dimensions_numbers items e :
  Forall (λ kv, is_number kv.2 = true) items →
  add_dimensions items e =
  Val (Embed (embed_title e) (embed_description e) (embed_color e) (embed_author e)
             (embed_fields e ++ map dimension_field items)).
Proof.
  intros Hall. revert e.
  induction Hall as [|[dimension tps] rest Hnum _ IH]; intros e; cbn [add_dimensions map].
  - rewrite app_nil_r. by destruct e.
  - cbn [snd] in Hnum.
    assert (format_2f tps = Val (Fixed2 tps)) as ->.
    { destruct tps; try discriminate; try reflexivity.
      unfold format_2f, is_number in *. by rewrite Hnum. }
    rewrite IH. unfold add_field; cbn. by rewrite <- app_assoc.
Qed.

Lemma add_dimensions_fails items e :
  Exists (λ kv, is_number kv.2 = false) items → ∃ x, add_dimensions items e = Exn x.
Proof.
  intros Hex. revert e.
  induction Hex as [[dimension tps] rest Hbad|[dimension tps] rest _ IH]; intros e;
    cbn [add_dimensions].
  - cbn [snd] in Hbad. unfold is_number in Hbad. unfold format_2f.
    destruct tps; try discriminate; try rewrite Hbad; eauto.
  - destruct (format_2f tps); [apply IH | eauto].
Qed.

(** X20. The TPS embed has one inline field per dimension, in the
    order of the response, named by the titled dimension and showing
    the rate with two decimals - none at all for an empty [dimensions] -
    provided every rate is a number that [float] can hold: a [float], a
    [bool], or an [int] of magnitude below [2^1024 - 2^970]; a single
    rate that is not - a string, null, a list, an object, or an [int]
    too large for a [float] - makes the whole embed fail. *)
Theorem tps_embed_fields response items :
  py_getitem response "dimensions" = Val (JDict items) →
  (Forall (λ kv, is_number kv.2 = true) items →
   tps_embed response =
   Val (Embed (Some [Lit "서버 tps (Ticks Per Second)"]) None (Some purple) None
              (map dimension_field items))) ∧
  (Exists (λ kv, is_number kv.2 = false) items → ∃ x, tps_embed response = Exn x).
Proof.
  intros Hdims. unfold tps_embed, dimensions_items. rewrite Hdims. split.
  - intros Hall. by rewrite add_dimensions_numbers.
  - apply add_dimensions_fails.
Qed.

Lemma tps_embed_fields_witness :
  tps_embed (JDict [("type", JStr "tps_response");
                    ("dimensions", JDict [("the_nether", JInt 20); ("overworld", JInt 19)])]) =
  Val (Embed (Some [Lit "서버 tps (Ticks Per Second)"]) None (Some purple) None
             [([Titled "the_nether"], [Lit "`"; Fixed2 (JInt 20); Lit "` TPS"], true);
              ([Titled "overworld"], [Lit "`"; Fixed2 (JInt 19); Lit "` TPS"], true)]).
Proof.
  refine (proj1 (tps_embed_fields
                   (JDict [("type", JStr "tps_response");
                           ("dimensions",
                            JDict [("the_nether", JInt 20); ("overworld", JInt 19)])])
                   [("the_nether", JInt 20); ("overworld", JInt 19)] eq_refl) _).
  repeat constructor.
Defined.

Lemma add_dimensions_app items rest e :
  Forall (λ kv, is_number kv.2 = true) items →
  add_dimensions (items ++ rest) e =
  add_dimensions rest
    (Embed (embed_title e) (embed_description e) (embed_color e) (embed_author e)
           (embed_fields e ++ map dimension_field items)).
Proof.
  intros Hall. revert e.
  induction Hall as [|[dimension tps] items' Hnum _ IH]; intros e; cbn [add_dimensions map app].
  - rewrite app_nil_r. by destruct e.
  - cbn [snd] in Hnum.
    assert (format_2f tps = Val (Fixed2 tps)) as ->.
    { destruct tps; try discriminate; try reflexivity.
      unfold format_2f, is_number in *. by rewrite Hnum. }
    rewrite IH. unfold add_field; cbn. by rewrite <- app_assoc.
Qed.

(** X25. An integer rate too large for a [float] - of magnitude
    [2^1024 - 2^970] or more - makes the TPS embed fail with
    [OverflowError], whatever follows it, when the rates before it can
    all be formatted. *)
Theorem rate_overflow_fails response items (dimension : string) (z : Z) rest :
  py_getitem response "dimensions" = Val (JDict (items ++ (dimension, JInt z) :: rest)) →
  Forall (λ kv, is_number kv.2 = true) items →
  (float_limit ≤ Z.abs z)%Z →
  tps_embed response = Exn (OverflowError "int too large to convert to float").
Proof.
  intros Hdims Hall Hbig. unfold tps_embed, dimensions_items. rewrite Hdims.
  rewrite add_dimensions_app by done. cbn [add_dimensions format_2f].
  unfold fits_float. by rewrite (proj2 (Z.ltb_ge _ _) Hbig).
Qed.

Lemma rate_overflow_fails_witness :
  tps_embed (JDict [("type", JStr "tps_response");
                    ("dimensions",
                     JDict [("overworld", JInt 20); ("the_end", JInt (2 ^ 1024))])]) =
  Exn (OverflowError "int too large to convert to float").
Proof.
  refine (rate_overflow_fails
            (JDict [("type", JStr "tps_response");
                    ("dimensions",
                     JDict [("overworld", JInt 20); ("the_end", JInt (2 ^ 1024))])])
            [("overworld", JInt 20)] "the_end" (2 ^ 1024) [] eq_refl _ _).
  - repeat constructor.
  - vm_compute. discriminate.
Defined.

(** X21. Whenever the player-list embed can be built, the response
    carries count, max and players, the description shows count and
    max, and the embed has no field when [players] is empty (or
    otherwise falsy) and exactly one field, the joined names, when it is
    not. *)
Theorem list_embed_fields response e :
  list_embed response = Val e →
  ∃ count max_players players,
    py_getitem response "count" = Val count ∧
    py_getitem response "max" = Val max_players ∧
    py_getitem response "players" = Val players ∧
    embed_description e =
      Some [Lit "**"; Str count; Lit "/"; Str max_players; Lit "** 명이 온라인입니다."] ∧
    (py_truthy players = false → embed_fields e = []) ∧
    (py_truthy players = true →
     ∃ names, py_join "
" players = Val names ∧
              embed_fields e = [([Lit "플레이어 명단"], [names], false)]).
Proof.
  unfold list_embed.
  destruct (py_getitem response "count") as [count|]; [|done].
  destruct (py_getitem response "max") as [max_players|]; [|done].
  destruct (py_getitem response "players") as [players|]; [|done].
  intros He. exists count, max_players, players. split_and!; try done.
  - destruct (py_truthy players).
    + destruct (py_join _ players); [by injection He as <- | done].
    + by injection He as <-.
  - intros Hfalse. rewrite Hfalse in He. by injection He as <-.
  - intros Htrue. rewrite Htrue in He.
    destruct (py_join _ players) as [names|]; [|done].
    exists names. by injection He as <-.
Qed.

Lemma list_embed_fields_witness :
  ∃ count max_players players,
    py_getitem list_response_r1_later "count" = Val count ∧
    py_getitem list_response_r1_later "max" = Val max_players ∧
    py_getitem list_response_r1_later "players" = Val players ∧
    Some [Lit "**"; Str (JInt 0); Lit "/"; Str (JInt 20); Lit "** 명이 온라인입니다."] =
      Some [Lit "**"; Str count; Lit "/"; Str max_players; Lit "** 명이 온라인입니다."] ∧
    (py_truthy players = false → @nil (text * text * bool) = []) ∧
    (py_truthy players = true →
     ∃ names, py_join "
" players = Val names ∧
              @nil (text * text * bool) = [([Lit "플레이어 명단"], [names], false)]).
Proof.
  exact (list_embed_fields list_response_r1_later
           (Embed (Some [Lit "플레이어 수"])
                  (Some [Lit "**"; Str (JInt 0); Lit "/"; Str (JInt 20);
                         Lit "** 명이 온라인입니다."])
                  (Some blue) None []) eq_refl).
Defined.

(** ** Events in order *)

Lemma notice_of_inv data e :
  notice_of data = Some e →
  ∃ k v player_uuid,
    py_get data "type" = Val (JStr (notice_type k)) ∧
    py_getitem data (notice_key k) = Val v ∧
    py_getitem data "uuid" = Val player_uuid ∧
    e = notice_embed k v player_uuid.
Proof.
  unfold notice_of.
  destruct (py_get data "type") as [[| | | |t| |]|]; try done.
  destruct (List.find _ _) as [k|] eqn:Hfind; [|done].
  apply List.find_some in Hfind as [_ Heq%String.eqb_eq]. subst t.
  destruct (py_getitem data (notice_key k)) as [v|] eqn:Hv; [|done].
  destruct (py_getitem data "uuid") as [u|] eqn:Hu; [|done].
  intros [= <-]. by exists k, v, u.
Qed.

(** The loop body on an event the channel accepts. *)
Lemma handle_message_notice json_loads WEBHOOK_URL message data e (ch : channel) env n w :
  json_loads message = Some data →
  notice_of data = Some e →
  bot_channel w = Some ch →
  answer (env n) (ChannelSend ch e) = Val tt →
  run (handle_message json_loads WEBHOOK_URL message) env n w =
  Result (Returned tt) (interfere (env n) w) (S n)
         [Did ReadChannel; Did ReadChannel; Called (ChannelSend ch e); Did ReadChannel].
Proof.
  intros Hloads (k & v & u & Htype & Hv & Hu & ->)%notice_of_inv Hch Hsend.
  unfold handle_message. rewrite run_try_except, Hloads. do 2 run_step.
  unfold process_minecraft_event, route_response.
  rewrite Htype. do 4 run_step. rewrite Hch.
  destruct k; cbn [notice_type notice_key] in *.
  all: change (py_eq_str (JStr ?a) ?b) with (String.eqb a b); cbn [String.eqb Ascii.eqb Bool.eqb].
  all: rewrite Hv, Hu; repeat run_step; rewrite (run_channel_send _ ch) by done.
  all: match goal with
       | |- context [notice_embed ?k _ _] =>
           change (set_author _ _ _) with (notice_embed k v u)
       end.
  all: rewrite Hsend; cbn [outcome_of world_of step_of trace_of].
  all: vm_compute (py_in_strs _ _); by repeat run_step.
Qed.

Lemma channel_sends_app tr1 tr2 :
  channel_sends (tr1 ++ tr2) = channel_sends tr1 ++ channel_sends tr2.
Proof. unfold channel_sends. apply omap_app. Qed.

(** The read loop over events: it returns normally, the channel is
    still known, and the embeds went out in order. *)
Lemma read_loop_notices json_loads WEBHOOK_URL (ws : handle) inbound embeds
    (ch : channel) env n w :
  Forall2 (λ m e, ∃ data, json_loads m = Some data ∧ notice_of data = Some e) inbound embeds →
  (∀ k, answer (env k) (WsRecv ws) = Val tt) →
  (∀ k c e, answer (env k) (ChannelSend c e) = Val tt) →
  (∀ k w', bot_channel (interfere (env k) w') = bot_channel w') →
  bot_channel w = Some ch →
  let r := run (read_loop json_loads WEBHOOK_URL ws inbound) env n w in
  outcome_of r = Returned tt ∧ bot_channel (world_of r) = Some ch ∧
  channel_sends (trace_of r) = embeds.
Proof.
  intros Hall Hrecv Hsend Hrely. revert n w.
  induction Hall as [|message e rest embeds (data & Hloads & Hnotice) _ IH]; intros n w Hch.
  - cbn [read_loop]. run_step. rewrite Hrecv, Hrely. by cbn.
  - cbn zeta. rewrite read_loop_cons by done.
    rewrite (handle_message_notice _ _ _ data e ch) by (rewrite ?Hrely; done).
    unfold and_then; cbn [outcome_of world_of step_of trace_of after app].
    destruct (IH (S (S n)) (interfere (env (S n)) (interfere (env n) w)))
      as (Hout & Hfinal & Hsends); [by rewrite !Hrely|].
    split_and!; [done | done |].
    change (?a :: ?b :: ?c :: ?d :: ?f :: ?l) with ([a; b; c; d; f] ++ l).
    by rewrite channel_sends_app, Hsends.
Qed.

(** X22. One notification per event, in arrival order: when a
    connection delivers join, leave and death events that carry their
    fields, the channel stays known and accepts the sends, and the
    receives succeed, the embeds sent to the channel are exactly the
    embeds of these events, in the order the frames arrived. *)
Theorem notices_in_order json_loads WEBHOOK_URL (ws : handle) inbound embeds
    (ch : channel) env n w :
  Forall2 (λ m e, ∃ data, json_loads m = Some data ∧ notice_of data = Some e) inbound embeds →
  (∀ k, answer (env k) (WsRecv ws) = Val tt) →
  (∀ k c e, answer (env k) (ChannelSend c e) = Val tt) →
  (∀ k w', bot_channel (interfere (env k) w') = bot_channel w') →
  bot_channel w = Some ch →
  channel_sends (trace_of (run (read_loop json_loads WEBHOOK_URL ws inbound) env n w)) = embeds.
Proof. intros. by eapply read_loop_notices. Qed.

Lemma notices_in_order_witness :
  channel_sends (trace_of (run (read_loop presence_loads None 1 ["in"; "fell"; "out"])
                               calm 0 connected))
  = [notice_embed join_notice (JStr "Alice") (JStr "u1");
     notice_embed death_notice (JStr "Alice fell") (JStr "u1");
     notice_embed leave_notice (JStr "Alice") (JStr "u1")].
Proof.
  refine (notices_in_order presence_loads None 1 ["in"; "fell"; "out"] _ 9 calm 0 connected
            _ _ _ _ eq_refl).
  - repeat constructor; eexists; split; reflexivity.
  - intros k. reflexivity.
  - intros k c e. reflexivity.
  - intros k w'. reflexivity.
Defined.

(** X23. A connection is announced both ways: under the same
    conditions, the handler of a connection that delivers such events
    and then closes sends the online embed first, then the embed of each
    event in order, then the offline embed, and returns normally. *)
Theorem connection_announced json_loads WEBHOOK_URL (ws : handle) inbound embeds
    (ch : channel) env n w :
  Forall2 (λ m e, ∃ data, json_loads m = Some data ∧ notice_of data = Some e) inbound embeds →
  (∀ k, answer (env k) (WsRecv ws) = Val tt) →
  (∀ k c e, answer (env k) (ChannelSend c e) = Val tt) →
  (∀ k w', bot_channel (interfere (env k) w') = bot_channel w') →
  bot_channel w = Some ch →
  let r := run (websocket_handler json_loads WEBHOOK_URL ws inbound) env n w in
  outcome_of r = Returned tt ∧
  channel_sends (trace_of r) = online_embed :: embeds ++ [offline_embed].
Proof.
  intros Hall Hrecv Hsend Hrely Hch r. subst r.
  unfold websocket_handler, disconnect_cleanup, logging.
  do 6 run_step. cbn [bot_channel]. rewrite Hch.
  rewrite run_bind, (run_channel_send _ ch) by done. rewrite Hsend.
  unfold and_then; cbn [outcome_of world_of step_of trace_of after app].
  rewrite run_try_finally, run_try_except. unfold and_finally, or_else.
  match goal with |- context [run (read_loop _ _ _ _) env ?a ?b] =>
    destruct (read_loop_notices json_loads WEBHOOK_URL ws inbound embeds ch env a b
                Hall Hrecv Hsend Hrely) as (Hout & Hfinal & Hsends);
      [by rewrite Hrely|]
  end.
  rewrite Hout. cbn [outcome_of world_of step_of trace_of].
  do 4 run_step. cbn [bot_channel]. rewrite Hfinal.
  rewrite (run_channel_send _ ch) by done. rewrite Hsend.
  cbn [outcome_of world_of step_of trace_of after app].
  split; [done|].
  change (?a :: ?b :: ?c :: ?d :: ?f :: ?l) with ([a; b; c; d; f] ++ l).
  rewrite !channel_sends_app, Hsends. reflexivity.
Qed.

Lemma connection_announced_witness :
  channel_sends (trace_of (run (websocket_handler presence_loads None 1 ["in"; "out"])
                               calm 0 connected))
  = online_embed :: [notice_embed join_notice (JStr "Alice") (JStr "u1");
                     notice_embed leave_notice (JStr "Alice") (JStr "u1")] ++ [offline_embed].
Proof.
  refine (proj2 (connection_announced presence_loads None 1 ["in"; "out"] _ 9 calm 0 connected
                   _ _ _ _ eq_refl)).
  - repeat constructor; eexists; split; reflexivity.
  - intros k. reflexivity.
  - intros k c e. reflexivity.
  - intros k w'. reflexivity.
Defined.

(** X24. A response frame whose [request_id] is a JSON array or
    object cannot be looked up: the membership test raises [TypeError],
    the loop body logs it, and the frame is dropped with the globals
    unchanged and no call made. *)
Theorem unhashable_request_id_logged json_loads WEBHOOK_URL message data key
    (ch : channel) env n w :
  json_loads message = Some data →
  is_response data = true →
  py_get data "request_id" = Val key →
  pending_has w key = Exn (TypeError "unhashable type: 'list'") ∨
  pending_has w key = Exn (TypeError "unhashable type: 'dict'") →
  bot_channel w = Some ch →
  ∃ e, pending_has w key = Exn e ∧
       run (handle_message json_loads WEBHOOK_URL message) env n w =
       Result (Returned tt) w n
              [Did ReadChannel;
               Did (Logging ERROR [Lit "Error processing message: "; Exc e])].
Proof.
  intros Hloads (t & Htype & Hresp)%is_response_inv Hkey Hhash Hch.
  unfold handle_message. rewrite run_try_except, Hloads. do 2 run_step.
  rewrite (process_response _ _ _ _ _ _ _ Htype Hresp Hch).
  unfold route_response, pending_contains. rewrite Hresp, Hkey. do 2 run_step.
  destruct key as [| | | |rid|items|fields]; cbn in Hhash; try (by destruct Hhash).
  all: eexists; split; [reflexivity|]; by repeat run_step.
Qed.

Lemma unhashable_request_id_logged_witness :
  ∃ e, pending_has waiting (JDict []) = Exn e ∧
       run (handle_message presence_loads None "odd") calm 0 waiting =
       Result (Returned tt) waiting 0
              [Did ReadChannel;
               Did (Logging ERROR [Lit "Error processing message: "; Exc e])].
Proof.
  refine (unhashable_request_id_logged presence_loads None "odd"
            (JDict [("type", JStr "tps_response"); ("request_id", JDict [])])
            (JDict []) 9 calm 0 waiting eq_refl eq_refl eq_refl _ eq_refl).
  right. reflexivity.
Defined.
